(** * DoubleEdgeStorage: the callable functions and their two client loops

    A shallow embedding of [functions/src/index.ts] (the Firebase callable
    functions: claims, account lifecycle, archive to and retrieve from the
    coldline bucket) and of the two client loops that drive them
    ([handleReceiveFiles] of GCPBucketList.tsx and [moveToGCPBucket] of
    FileList.tsx).

    The Firebase Auth user table, the Firestore documents, the two storage
    buckets and the staging directory are finite maps of one [World]; every
    call to a backend is recorded in a trace and may fail, as directed by an
    oracle carried by the world, so that every statement below holds whatever
    the backends do. *)

From Stdlib Require Import String Ascii List Arith Lia Permutation.
From stdpp Require Import base option list gmap strings fin_maps pretty.

Local Open Scope string_scope.
Local Open Scope list_scope.

(* ===================================================================== *)
(** ** JavaScript values and strings *)
(* ===================================================================== *)

(** The values a custom claim, a request field or a Firestore field holds. *)
Inductive JsVal : Type :=
| JUndefined
| JNull
| JBool (b : bool)
| JNum (n : Z)
| JStr (s : string)
| JServerTimestamp.

#[global] Instance JsVal_eq_dec : EqDecision JsVal.
Proof. solve_decision. Defined.

(** [!!v] of JavaScript. *)
Definition truthy (v : JsVal) : bool :=
  match v with
  | JUndefined | JNull => false
  | JBool b => b
  | JNum n => negb (Z.eqb n 0)
  | JStr s => negb (String.eqb s "")
  | JServerTimestamp => true
  end.

(** [h || d] for a header value [h] that may be absent. *)
Definition or_default (h : option string) (d : string) : string :=
  match h with
  | Some t => if truthy (JStr t) then t else d
  | None => d
  end.

(** [typeof v === 'boolean']. *)
Definition is_boolean (v : JsVal) : bool :=
  match v with JBool _ => true | _ => false end.

(** [s.endsWith(suffix)]. *)
Definition endsWith (s suffix : string) : bool :=
  let n := String.length s in
  let k := String.length suffix in
  (k <=? n)%nat && String.eqb (substring (n - k) k s) suffix.

(** [s.slice(-k)]: the last [k] characters, the whole string when it is
    shorter. *)
Definition slice_last (k : nat) (s : string) : string :=
  substring (String.length s - k) k s.

(** [s.startsWith(prefix)], used by the bucket listing. *)
Definition startsWith (s pre : string) : bool := String.prefix pre s.

(* ===================================================================== *)
(** ** Errors and call contexts *)
(* ===================================================================== *)

Inductive ErrorCode : Type :=
| unauthenticated
| permission_denied
| invalid_argument
| internal
| unknown.

(** What a function body can throw: an [HttpsError], or any other error
    (a backend rejection, [new Error(...)]). *)
Inductive Exn : Type :=
| HttpsError (code : ErrorCode) (message : string)
| JsError (message : string).

Inductive Outcome (A : Type) : Type :=
| Ok (a : A)
| Throw (e : Exn).
Arguments Ok {A} a.
Arguments Throw {A} e.

(** [request.auth] / [context.auth]: the uid and the decoded token claims. *)
Record AuthData : Type := mkAuth {
  auth_uid : string;
  auth_token : gmap string JsVal
}.

Record CallableContext : Type := mkContext {
  auth : option AuthData
}.

(* ===================================================================== *)
(** ** The world: Auth, Firestore, the two buckets, staging, the network *)
(* ===================================================================== *)

Definition bytes : Type := list Byte.byte.

Record UserRecord : Type := mkUser {
  ur_email : option string;
  ur_displayName : option string;
  ur_disabled : bool;
  ur_password : string;
  ur_customClaims : gmap string JsVal
}.

Record Blob : Type := mkBlob {
  blob_contents : bytes;
  blob_contentType : string
}.

Record HttpResponse : Type := mkResponse {
  resp_status : nat;
  resp_body : bytes;
  resp_contentType : option string
}.

(** [response.ok]. *)
Definition resp_ok (r : HttpResponse) : bool :=
  (200 <=? resp_status r)%nat && (resp_status r <=? 299)%nat.

(** Every call that leaves the function body. *)
Inductive BackendOp : Type :=
| AuthSetCustomUserClaims (uid : string)
| AuthGetUserByEmail (email : JsVal)
| AuthListUsers (pageToken : option nat)
| AuthUpdateUser (uid : JsVal)
| AuthDeleteUser (uid : JsVal)
| FirestoreSetUserDoc (uid : string)
| HttpFetch (url : string)
| StageWrite (path : string)
| StageUnlink (path : string)
| ColdUpload (destination : string)
| ColdGetFiles (pre : string)
| ColdDownload (key : string)
| ColdDelete (key : string)
| HotSave (key : string)
| HotDeleteObject (key : string)
| IndexSet (uid fileName : string)
| IndexDelete (uid fileName : string).

Record World : Type := mkWorld {
  users : gmap string UserRecord;            (* Firebase Auth *)
  userDocs : gmap string (gmap string JsVal); (* Firestore users/{uid} *)
  hot : gmap string Blob;                    (* Firebase Storage bucket *)
  cold : gmap string Blob;                   (* the coldline bucket *)
  gcpFiles : gmap (string * string) string;  (* Firestore gcpFiles/{uid}/files/{fileName} -> url *)
  tmp : gmap string bytes;                   (* the /tmp staging directory *)
  web : string -> option HttpResponse;       (* what fetch(url) finds *)
  faults : nat -> BackendOp -> bool;         (* does the n-th backend call fail? *)
  trace : list BackendOp                     (* the backend calls made so far *)
}.

Definition with_users (f : gmap string UserRecord -> gmap string UserRecord) (w : World) : World :=
  mkWorld (f (users w)) (userDocs w) (hot w) (cold w) (gcpFiles w) (tmp w) (web w) (faults w) (trace w).
Definition with_userDocs (f : gmap string (gmap string JsVal) -> gmap string (gmap string JsVal)) (w : World) : World :=
  mkWorld (users w) (f (userDocs w)) (hot w) (cold w) (gcpFiles w) (tmp w) (web w) (faults w) (trace w).
Definition with_hot (f : gmap string Blob -> gmap string Blob) (w : World) : World :=
  mkWorld (users w) (userDocs w) (f (hot w)) (cold w) (gcpFiles w) (tmp w) (web w) (faults w) (trace w).
Definition with_cold (f : gmap string Blob -> gmap string Blob) (w : World) : World :=
  mkWorld (users w) (userDocs w) (hot w) (f (cold w)) (gcpFiles w) (tmp w) (web w) (faults w) (trace w).
Definition with_gcpFiles (f : gmap (string * string) string -> gmap (string * string) string) (w : World) : World :=
  mkWorld (users w) (userDocs w) (hot w) (cold w) (f (gcpFiles w)) (tmp w) (web w) (faults w) (trace w).
Definition with_tmp (f : gmap string bytes -> gmap string bytes) (w : World) : World :=
  mkWorld (users w) (userDocs w) (hot w) (cold w) (gcpFiles w) (f (tmp w)) (web w) (faults w) (trace w).
Definition with_trace (f : list BackendOp -> list BackendOp) (w : World) : World :=
  mkWorld (users w) (userDocs w) (hot w) (cold w) (gcpFiles w) (tmp w) (web w) (faults w) (f (trace w)).

(** The durable part of the world: everything a later call can observe. *)
Definition durable (w : World) :=
  (users w, userDocs w, hot w, cold w, gcpFiles w).

(* ===================================================================== *)
(** ** The effect monad: state passing with exceptions *)
(* ===================================================================== *)

Definition Eff (A : Type) : Type := World -> Outcome A * World.

Definition ret {A} (a : A) : Eff A := fun w => (Ok a, w).
Definition throw {A} (e : Exn) : Eff A := fun w => (Throw e, w).

Definition bind {A B} (m : Eff A) (k : A -> Eff B) : Eff B :=
  fun w =>
    match m w with
    | (Ok a, w1) => k a w1
    | (Throw e, w1) => (Throw e, w1)
    end.

(** [try { m } catch (error) { h error }]. *)
Definition try_catch {A} (m : Eff A) (h : Exn -> Eff A) : Eff A :=
  fun w =>
    match m w with
    | (Ok a, w1) => (Ok a, w1)
    | (Throw e, w1) => h e w1
    end.

(** [try { m } finally { c }], for a cleanup [c] that does not throw. *)
Definition try_finally {A} (m : Eff A) (c : Eff unit) : Eff A :=
  fun w =>
    match m w with
    | (r, w1) => (r, snd (c w1))
    end.

Notation "'let!' x ':=' m 'in' k" := (bind m (fun x => k))
  (at level 10, x pattern, m at level 100, k at level 200).
Notation "m ';;' k" := (bind m (fun _ => k))
  (at level 100, k at level 200, right associativity).

(** One backend call: it is traced, and it fails when the oracle says so. *)
Definition attempt (op : BackendOp) : Eff unit :=
  fun w =>
    let w1 := with_trace (fun t => t ++ [op]) w in
    if faults w (length (trace w)) op
    then (Throw (JsError "backend failure"), w1)
    else (Ok tt, w1).

Definition get {A} (f : World -> A) : Eff A := fun w => (Ok (f w), w).
Definition modify (f : World -> World) : Eff unit := fun w => (Ok tt, f w).

Definition is_ok {A} (r : Outcome A) : bool :=
  match r with Ok _ => true | Throw _ => false end.

(* ===================================================================== *)
(** ** The Firebase Admin SDK, as the functions use it *)
(* ===================================================================== *)

Definition set_claims (claims : gmap string JsVal) (u : UserRecord) : UserRecord :=
  mkUser (ur_email u) (ur_displayName u) (ur_disabled u) (ur_password u) claims.
Definition set_disabled (b : bool) (u : UserRecord) : UserRecord :=
  mkUser (ur_email u) (ur_displayName u) b (ur_password u) (ur_customClaims u).
Definition set_password (p : string) (u : UserRecord) : UserRecord :=
  mkUser (ur_email u) (ur_displayName u) (ur_disabled u) p (ur_customClaims u).

(** [admin.auth().setCustomUserClaims(uid, claims)]: the claims object of
    the account is replaced as a whole. *)
Definition setCustomUserClaims (uid : string) (claims : gmap string JsVal) : Eff unit :=
  attempt (AuthSetCustomUserClaims uid);;
  let! us := get users in
  match us !! uid with
  | None => throw (JsError "auth/user-not-found")
  | Some u => modify (with_users (insert uid (set_claims claims u)))
  end.

(** [admin.auth().getUserByEmail(email)]. *)
Definition getUserByEmail (email : JsVal) : Eff (string * UserRecord) :=
  attempt (AuthGetUserByEmail email);;
  match email with
  | JStr e =>
      let! us := get users in
      match List.find (fun p => bool_decide (ur_email (snd p) = Some e)) (map_to_list us) with
      | Some p => ret p
      | None => throw (JsError "auth/user-not-found")
      end
  | _ => throw (JsError "auth/invalid-email")
  end.

(** The properties the functions pass to [updateUser]. *)
Inductive UpdateRequest : Type :=
| UpdPassword (password : string)
| UpdDisabled (disabled : bool).

(** [admin.auth().updateUser(uid, properties)]; a password shorter than six
    characters is rejected by the service. *)
Definition updateUser (uid : JsVal) (properties : UpdateRequest) : Eff unit :=
  attempt (AuthUpdateUser uid);;
  match uid with
  | JStr id =>
      let! us := get users in
      match us !! id with
      | None => throw (JsError "auth/user-not-found")
      | Some u =>
          match properties with
          | UpdPassword p =>
              if (String.length p <? 6)%nat then throw (JsError "auth/invalid-password")
              else modify (with_users (insert id (set_password p u)))
          | UpdDisabled b => modify (with_users (insert id (set_disabled b u)))
          end
      end
  | _ => throw (JsError "auth/invalid-uid")
  end.

(** [admin.auth().deleteUser(uid)]. *)
Definition deleteUser (uid : JsVal) : Eff unit :=
  attempt (AuthDeleteUser uid);;
  match uid with
  | JStr id =>
      let! us := get users in
      match us !! id with
      | None => throw (JsError "auth/user-not-found")
      | Some _ => modify (with_users (delete id))
      end
  | _ => throw (JsError "auth/invalid-uid")
  end.

Record ListUsersResult : Type := mkListUsersResult {
  lur_users : list (string * UserRecord);
  lur_pageToken : option nat
}.

(** [admin.auth().listUsers(maxResults, pageToken)]: the accounts are served
    in the order of the table, [maxResults] at a time; the continuation
    token is the offset of the next page and is absent on the last one. *)
Definition listUsers (maxResults : nat) (pageToken : option nat) : Eff ListUsersResult :=
  attempt (AuthListUsers pageToken);;
  let! us := get users in
  let all := map_to_list us in
  let off := default 0%nat pageToken in
  ret (mkListUsersResult
         (take maxResults (drop off all))
         (if (off + maxResults <? length all)%nat then Some (off + maxResults)%nat else None)).

(** [admin.firestore().doc(`users/${uid}`).set(fields, { merge: true })]. *)
Definition setUserDocMerge (uid : string) (fields : gmap string JsVal) : Eff unit :=
  attempt (FirestoreSetUserDoc uid);;
  modify (with_userDocs (fun docs => <[uid := fields ∪ default ∅ (docs !! uid)]> docs)).

(* ===================================================================== *)
(** ** index.ts: claims *)
(* ===================================================================== *)

Inductive Response : Type :=
| RMessage (message : string)                 (* { message } *)
| RSuccess (message : string)                 (* { success: true, message } *)
| RUsers (us : list (string * option string * option string * bool))
                                              (* { success: true, users } *)
| RFiles (files : list (string * string)).    (* { files: [{ name, url }] } *)

(** [setCustomClaims], the [auth.user().onCreate] trigger. *)
Definition setCustomClaims (uid : string) (email : option string) : Eff unit :=
  try_catch
    (match email with
     | None => ret tt
     | Some e =>
         if negb (truthy (JStr e)) then ret tt
         else
           let isGCPEnabled := endsWith e "@example.com" in
           setCustomUserClaims uid {[ "gcpAccess" := JBool isGCPEnabled ]}
     end)
    (fun _ => throw (HttpsError internal "Failed to set custom claims.")).

(** The quotation mark (character 34), as it stands inside the two
    invalid-argument messages of [setCustomAdminClaims]. *)
Definition dquote : string := String "034"%char EmptyString.

(** [setCustomAdminClaims({ email, isAdmin })]. *)
Definition setCustomAdminClaims (email isAdmin : JsVal) (request : CallableContext) : Eff Response :=
  match auth request with
  | None => throw (HttpsError unauthenticated "You must be authenticated to set custom claims.")
  | Some _ =>
      if negb (is_boolean isAdmin)
      then throw (HttpsError invalid_argument
                    ("The " +:+ dquote +:+ "isAdmin" +:+ dquote +:+ " field must be a boolean."))
      else if negb (truthy email)
      then throw (HttpsError invalid_argument
                    ("The " +:+ dquote +:+ "email" +:+ dquote +:+ " parameter is required."))
      else
        try_catch
          (let! user := getUserByEmail email in
           setCustomUserClaims (fst user) {[ "gcpAccess" := JBool true; "admin" := isAdmin ]};;
           setUserDocMerge (fst user)
             {[ "email" := email; "isAdmin" := isAdmin; "gcpAccess" := JBool true;
                "createdAt" := JServerTimestamp ]};;
           ret (RSuccess ("Custom claims updated for user: " +:+
                          match email with JStr e => e | _ => "" end)))
          (fun _ => throw (HttpsError unknown "Failed to set custom claims."))
  end.

(** [grantGCPAccess()]. *)
Definition grantGCPAccess (context : CallableContext) : Eff Response :=
  match auth context with
  | None => throw (HttpsError unauthenticated "User not authenticated.")
  | Some a =>
      let uid := auth_uid a in
      try_catch
        (setCustomUserClaims uid {[ "gcpAccess" := JBool true ]};;
         ret (RMessage "GCP access granted successfully. Please refresh your token."))
        (fun _ => throw (HttpsError internal "Failed to grant GCP access."))
  end.

(* ===================================================================== *)
(** ** index.ts: account lifecycle *)
(* ===================================================================== *)

(** [checkAdminAuth(request)]. *)
Definition checkAdminAuth (request : CallableContext) : Eff unit :=
  match auth request with
  | None => throw (HttpsError permission_denied "You must be an admin to perform this action.")
  | Some a =>
      if negb (truthy (default JUndefined (auth_token a !! "admin")))
      then throw (HttpsError permission_denied "You must be an admin to perform this action.")
      else ret tt
  end.

Definition user_view (p : string * UserRecord) : string * option string * option string * bool :=
  (fst p, ur_email (snd p), ur_displayName (snd p), ur_disabled (snd p)).

(** The [do ... while (pageToken)] loop of [fetchUsers]; [None] when the
    fuel runs out before the token does. *)
Fixpoint fetchUsers_pages (maxResults fuel : nat) (pageToken : option nat)
    (acc : list (string * option string * option string * bool)) (w : World)
    : option (Outcome (list (string * option string * option string * bool)) * World) :=
  match fuel with
  | O => None
  | S fuel' =>
      match listUsers maxResults pageToken w with
      | (Ok listUsersResult, w1) =>
          let acc' := acc ++ map user_view (lur_users listUsersResult) in
          match lur_pageToken listUsersResult with
          | Some t => fetchUsers_pages maxResults fuel' (Some t) acc' w1
          | None => Some (Ok acc', w1)
          end
      | (Throw e, w1) => Some (Throw e, w1)
      end
  end.

(** [fetchUsers()]. *)
Definition fetchUsers (fuel : nat) (request : CallableContext) (w : World)
    : option (Outcome Response * World) :=
  match checkAdminAuth request w with
  | (Throw e, w1) => Some (Throw e, w1)
  | (Ok _, w1) =>
      match fetchUsers_pages 1000 fuel None [] w1 with
      | None => None
      | Some (Ok us, w2) => Some (Ok (RUsers us), w2)
      | Some (Throw _, w2) => Some (Throw (HttpsError unknown "Failed to fetch users."), w2)
      end
  end.

(** [resetUserPassword({ uid })]; [random36] is [Math.random().toString(36)],
    a string ["0."] followed by the base-36 digits of the number drawn. *)
Definition resetUserPassword (random36 : string) (uid : JsVal) (request : CallableContext) : Eff Response :=
  checkAdminAuth request;;
  if negb (truthy uid)
  then throw (HttpsError invalid_argument "UID is required to reset the password.")
  else
    let newPassword := slice_last 8 random36 in
    try_catch
      (updateUser uid (UpdPassword newPassword);;
       ret (RSuccess ("Password reset successfully: " +:+ newPassword)))
      (fun _ => throw (HttpsError unknown "Failed to reset password.")).

(** [disableUserAccount({ uid })]. *)
Definition disableUserAccount (uid : JsVal) (request : CallableContext) : Eff Response :=
  checkAdminAuth request;;
  if negb (truthy uid)
  then throw (HttpsError invalid_argument "UID is required to disable the account.")
  else
    try_catch
      (updateUser uid (UpdDisabled true);;
       ret (RSuccess "User account disabled successfully."))
      (fun _ => throw (HttpsError unknown "Failed to disable user account.")).

(** [enableUserAccount({ uid })]. *)
Definition enableUserAccount (uid : JsVal) (request : CallableContext) : Eff Response :=
  checkAdminAuth request;;
  if negb (truthy uid)
  then throw (HttpsError invalid_argument "UID is required to enable the account.")
  else
    try_catch
      (updateUser uid (UpdDisabled false);;
       ret (RSuccess "User account enabled successfully."))
      (fun _ => throw (HttpsError unknown "Failed to enable user account.")).

(** [deleteUserAccount({ uid })]. *)
Definition deleteUserAccount (uid : JsVal) (request : CallableContext) : Eff Response :=
  checkAdminAuth request;;
  if negb (truthy uid)
  then throw (HttpsError invalid_argument "UID is required to delete the account.")
  else
    try_catch
      (deleteUser uid;;
       ret (RSuccess "User account deleted successfully."))
      (fun _ => throw (HttpsError unknown "Failed to delete user account.")).

(* ===================================================================== *)
(** ** Storage backends *)
(* ===================================================================== *)

Definition bucketName : string := "double-edge-coldline-bucket-030340395".

(** The segments of a path, split at every [/]. *)
Fixpoint split_slash (s : string) : list string :=
  match s with
  | EmptyString => [EmptyString]
  | String c s' =>
      if Ascii.eqb c "/"%char then EmptyString :: split_slash s'
      else match split_slash s' with
           | [] => [String c EmptyString]
           | seg :: segs => String c seg :: segs
           end
  end.

(** [normalizeString] of Node's posix [path] module on the segments of an
    absolute path: an empty segment and [.] are skipped, [..] removes the
    segment before it and is skipped at the root. *)
Definition normalize_segments (segs : list string) : list string :=
  rev (fold_left
         (fun stack seg =>
            if String.eqb seg EmptyString || String.eqb seg "." then stack
            else if String.eqb seg ".." then tail stack
            else seg :: stack)
         segs []).

(** [path.join("/tmp", fileName)] on the posix file system of the function:
    an empty argument is left out, the rest is joined by [/] and normalised;
    a trailing [/] is kept. *)
Definition tmp_path (fileName : string) : string :=
  if String.eqb fileName EmptyString then "/tmp"
  else
    match normalize_segments ("tmp" :: split_slash fileName) with
    | [] => "/"
    | segs => "/" +:+ String.concat "/" segs +:+
              (if endsWith fileName "/" then "/" else EmptyString)
    end.

Arguments tmp_path : simpl never.

(** A plain file name: not empty, not [.] or [..], and without a [/]. For
    such a name [path.join("/tmp", fileName)] is the file [/tmp/{fileName}]
    of the staging directory itself. *)
Fixpoint no_slash (s : string) : bool :=
  match s with
  | EmptyString => true
  | String c s' => negb (Ascii.eqb c "/"%char) && no_slash s'
  end.

Definition plain_name (fileName : string) : bool :=
  negb (String.eqb fileName EmptyString) && negb (String.eqb fileName ".") &&
  negb (String.eqb fileName "..") && no_slash fileName.

(** [`${uid}/${fileName}`], the key of an object in either bucket. *)
Definition object_key (uid fileName : string) : string := uid +:+ "/" +:+ fileName.

Definition cold_url (key : string) : string :=
  "https://storage.googleapis.com/" +:+ bucketName +:+ "/" +:+ key.

(** [fetch(url)] of node-fetch: rejects when the host cannot be reached. *)
Definition fetch (url : string) : Eff HttpResponse :=
  attempt (HttpFetch url);;
  let! net := get web in
  match net url with
  | None => throw (JsError "request failed")
  | Some r => ret r
  end.

(** Piping the response body into [fs.createWriteStream(path)] and awaiting
    the stream's [finish]. The failing case stands for an error of the body
    stream, which rejects the awaited promise. An error of the write stream
    itself (the path is a directory, or its directory is missing) has no
    handler in the code: the promise is then never settled and the call does
    not return. Here that case is a failing [StageWrite] like the other, so
    a statement that depends on the difference assumes that the staging
    write does not fail. *)
Definition stage_write (path : string) (body : bytes) : Eff unit :=
  attempt (StageWrite path);;
  modify (with_tmp (insert path body)).

(** [fs.unlinkSync(path)]. *)
Definition unlinkSync (path : string) : Eff unit :=
  attempt (StageUnlink path);;
  let! files := get tmp in
  match files !! path with
  | None => throw (JsError "ENOENT")
  | Some _ => modify (with_tmp (delete path))
  end.

(** [bucket.upload(path, { destination, metadata: { contentType } })]. *)
Definition bucket_upload (path destination contentType : string) : Eff unit :=
  attempt (ColdUpload destination);;
  let! files := get tmp in
  match files !! path with
  | None => throw (JsError "ENOENT")
  | Some body => modify (with_cold (insert destination (mkBlob body contentType)))
  end.

(** [bucket.getFiles({ prefix })]: the names of the objects under a prefix. *)
Definition bucket_getFiles (pre : string) : Eff (list string) :=
  attempt (ColdGetFiles pre);;
  let! objects := get cold in
  ret (List.filter (fun name => startsWith name pre) (map fst (map_to_list objects))).

(** [bucket.file(key).download()]. *)
Definition file_download (key : string) : Eff bytes :=
  attempt (ColdDownload key);;
  let! objects := get cold in
  match objects !! key with
  | None => throw (JsError "No such object")
  | Some b => ret (blob_contents b)
  end.

(** [bucket.file(key).delete()]. *)
Definition file_delete (key : string) : Eff unit :=
  attempt (ColdDelete key);;
  let! objects := get cold in
  match objects !! key with
  | None => throw (JsError "No such object")
  | Some _ => modify (with_cold (delete key))
  end.

(** [admin.storage().bucket().file(key).save(contents, { metadata })]. *)
Definition firebaseFile_save (key : string) (contents : bytes) (contentType : string) : Eff unit :=
  attempt (HotSave key);;
  modify (with_hot (insert key (mkBlob contents contentType))).

(** [deleteObject(ref(storage, key))] of the client SDK. *)
Definition deleteObject (key : string) : Eff unit :=
  attempt (HotDeleteObject key);;
  let! objects := get hot in
  match objects !! key with
  | None => throw (JsError "storage/object-not-found")
  | Some _ => modify (with_hot (delete key))
  end.

(** [gcpFiles/{uid}/files/{fileName}.set({ url })]. *)
Definition index_set (uid fileName url : string) : Eff unit :=
  attempt (IndexSet uid fileName);;
  modify (with_gcpFiles (insert (uid, fileName) url)).

(** [gcpFiles/{uid}/files/{fileName}.delete()]. *)
Definition index_delete (uid fileName : string) : Eff unit :=
  attempt (IndexDelete uid fileName);;
  modify (with_gcpFiles (delete (uid, fileName))).

(** [s.replace(pat, "")]: the first occurrence of [pat] is removed. *)
Fixpoint remove_first (pat s : string) : string :=
  if String.prefix pat s
  then substring (String.length pat) (String.length s - String.length pat) s
  else match s with
       | EmptyString => EmptyString
       | String c s' => String c (remove_first pat s')
       end.

(* ===================================================================== *)
(** ** index.ts: archive, list, retrieve *)
(* ===================================================================== *)

(** [uploadToGCPBucket({ fileName, fileUrl })]. *)
Definition uploadToGCPBucket (fileName fileUrl : string) (context : CallableContext) : Eff Response :=
  match auth context with
  | None => throw (HttpsError unauthenticated "User not authenticated.")
  | Some a =>
      let uid := auth_uid a in
      let destination := object_key uid fileName in
      try_finally
        (try_catch
           (let! response := fetch fileUrl in
            if negb (resp_ok response)
            then throw (JsError ("Failed to fetch file. Status: " +:+ pretty (resp_status response)))
            else
              let tempFilePath := tmp_path fileName in
              stage_write tempFilePath (resp_body response);;
              let contentType :=
                or_default (resp_contentType response) "application/octet-stream" in
              bucket_upload tempFilePath destination contentType;;
              index_set uid fileName (cold_url destination);;
              ret (RMessage "File uploaded successfully."))
           (fun _ => throw (HttpsError internal "File upload failed.")))
        (try_catch (unlinkSync (tmp_path fileName)) (fun _ => ret tt))
  end.

(** [listGCPFiles()]. *)
Definition listGCPFiles (context : CallableContext) : Eff Response :=
  match auth context with
  | None => throw (HttpsError unauthenticated "User not authenticated.")
  | Some a =>
      let uid := auth_uid a in
      let pre := uid +:+ "/" in
      try_catch
        (let! files := bucket_getFiles pre in
         ret (RFiles (map (fun name => (remove_first pre name, cold_url name)) files)))
        (fun _ => throw (HttpsError internal "Failed to list GCP bucket files."))
  end.

(** [downloadFromGCPBucket({ fileName })]. *)
Definition downloadFromGCPBucket (fileName : string) (context : CallableContext) : Eff Response :=
  match auth context with
  | None => throw (HttpsError unauthenticated "User not authenticated.")
  | Some a =>
      let uid := auth_uid a in
      if negb (truthy (JStr fileName))
      then throw (HttpsError invalid_argument "File name is required.")
      else
        let key := object_key uid fileName in
        let firebaseStoragePath := object_key uid fileName in
        try_catch
          (let! contents := file_download key in
           firebaseFile_save firebaseStoragePath contents "application/octet-stream";;
           file_delete key;;
           index_delete uid fileName;;
           ret (RMessage ("File " +:+ fileName +:+ " successfully received and stored.")))
          (fun _ => throw (HttpsError internal "Failed to receive file from GCP bucket."))
  end.

(* ===================================================================== *)
(** ** The client loops *)
(* ===================================================================== *)

Inductive ConsoleLine : Type :=
| ConsoleLog (line : string)
| ConsoleError (line : string).

(** The component state and output [handleReceiveFiles] leaves behind. *)
Record ReceiveView : Type := mkReceiveView {
  successfulDownloads : list string;
  failedDownloads : list string;
  console : list ConsoleLine;
  alert : option string;
  error : option string
}.

(** The [for (const fileName of selectedFiles)] loop of [handleReceiveFiles],
    with its inner [try]/[catch]. *)
Fixpoint receive_loop (user : AuthData) (selectedFiles : list string)
    (succ failed : list string) (out : list ConsoleLine) (w : World)
    : (list string * list string * list ConsoleLine) * World :=
  match selectedFiles with
  | [] => ((succ, failed, out), w)
  | fileName :: rest =>
      let out1 := out ++ [ConsoleLog ("Receiving file: " +:+ fileName +:+ " from GCP bucket...")] in
      match downloadFromGCPBucket fileName (mkContext (Some user)) w with
      | (Ok _, w1) =>
          receive_loop user rest (succ ++ [fileName]) failed
            (out1 ++ [ConsoleLog ("File " +:+ fileName +:+ " received successfully.")]) w1
      | (Throw _, w1) =>
          receive_loop user rest succ (failed ++ [fileName])
            (out1 ++ [ConsoleError ("Error receiving file " +:+ fileName +:+ ":")]) w1
      end
  end.

(** [handleReceiveFiles()], up to the summary alert. *)
Definition handleReceiveFiles (currentUser : option AuthData) (selectedFiles : list string)
    (w : World) : ReceiveView * World :=
  match currentUser with
  | None => (mkReceiveView [] [] [] None (Some "User is not authenticated."), w)
  | Some user =>
      match receive_loop user selectedFiles [] [] [] w with
      | ((succ, failed, out), w1) =>
          let summary :=
            if (0 <? length succ)%nat
            then Some ("Successfully received " +:+ pretty (length succ) +:+ " files. " +:+
                       (if (0 <? length failed)%nat
                        then pretty (length failed) +:+ " files failed to download."
                        else ""))
            else None in
          (mkReceiveView succ failed out summary None, w1)
      end
  end.

(** The [for] loop of [moveToGCPBucket]: the first failure leaves the loop. *)
Fixpoint move_loop (user : AuthData) (files : list (string * string))
    (selectedFiles : list string) : Eff unit :=
  match selectedFiles with
  | [] => ret tt
  | fileName :: rest =>
      match List.find (fun file => String.eqb (fst file) fileName) files with
      | Some file =>
          uploadToGCPBucket (fst file) (snd file) (mkContext (Some user));;
          deleteObject (object_key (auth_uid user) (fst file));;
          move_loop user files rest
      | None => move_loop user files rest
      end
  end.

Inductive MoveView : Type :=
| MoveAlert (message : string)
| MoveError (message : string).

(** [moveToGCPBucket()]; [files] is the component's list of [{ name, url }]. *)
Definition moveToGCPBucket (currentUser : option AuthData) (files : list (string * string))
    (selectedFiles : list string) (w : World) : MoveView * World :=
  match currentUser with
  | None => (MoveError "User is not authenticated.", w)
  | Some user =>
      match move_loop user files selectedFiles w with
      | (Ok _, w1) => (MoveAlert "Selected files successfully moved to GCP bucket.", w1)
      | (Throw _, w1) =>
          (MoveError "Failed to move files to the GCP bucket. Please try again.", w1)
      end
  end.

(* ===================================================================== *)
(** ** The call surface, by family *)
(* ===================================================================== *)

(** The account lifecycle operations, as the admin page dispatches them. *)
Inductive LifecycleCall : Type :=
| CallFetchUsers (fuel : nat)
| CallResetUserPassword (random36 : string) (uid : JsVal)
| CallDisableUserAccount (uid : JsVal)
| CallEnableUserAccount (uid : JsVal)
| CallDeleteUserAccount (uid : JsVal).

Definition run_lifecycle (c : LifecycleCall) (request : CallableContext) (w : World)
    : option (Outcome Response * World) :=
  match c with
  | CallFetchUsers fuel => fetchUsers fuel request w
  | CallResetUserPassword random36 uid => Some (resetUserPassword random36 uid request w)
  | CallDisableUserAccount uid => Some (disableUserAccount uid request w)
  | CallEnableUserAccount uid => Some (enableUserAccount uid request w)
  | CallDeleteUserAccount uid => Some (deleteUserAccount uid request w)
  end.

(** The operations on the cold tier. *)
Inductive TierCall : Type :=
| CallUploadToGCPBucket (fileName fileUrl : string)
| CallDownloadFromGCPBucket (fileName : string)
| CallListGCPFiles.

Definition run_tier (c : TierCall) (context : CallableContext) : Eff Response :=
  match c with
  | CallUploadToGCPBucket fileName fileUrl => uploadToGCPBucket fileName fileUrl context
  | CallDownloadFromGCPBucket fileName => downloadFromGCPBucket fileName context
  | CallListGCPFiles => listGCPFiles context
  end.

(** Does the caller's token carry a truthy [admin] claim? *)
Definition has_admin_claim (request : CallableContext) : bool :=
  match auth request with
  | None => false
  | Some a => truthy (default JUndefined (auth_token a !! "admin"))
  end.

(** Does the caller's token carry [gcpAccess = true]? *)
Definition has_gcpAccess (context : CallableContext) : bool :=
  match auth context with
  | None => false
  | Some a => bool_decide (auth_token a !! "gcpAccess" = Some (JBool true))
  end.

(** The uid of an entry of the [users] array that [fetchUsers] returns. *)
Definition view_uid (v : string * option string * option string * bool) : string :=
  fst (fst (fst v)).

(** The continuation tokens that follow the page at offset [off], for [k]
    further pages of [m] accounts. *)
Definition page_tokens (m off k : nat) : list (option nat) :=
  map (fun i => Some (off + i * m)) (seq 1 k).

(** The fetch of [url] fails: the call itself fails, the host is unreachable,
    or the status is not a success. *)
Definition fetch_fails (url : string) (w : World) : Prop :=
  faults w (length (trace w)) (HttpFetch url) = true \/
  web w url = None \/
  exists r, web w url = Some r /\ resp_ok r = false.

(* ===================================================================== *)
(** ** Sample data *)
(* ===================================================================== *)

Module Sample.

Definition alice : UserRecord :=
  mkUser (Some "alice@example.com") None false "pw-alice" ∅.
Definition bob : UserRecord :=
  mkUser (Some "bob@corp.org") (Some "Bob") false "pw-bob"
    {[ "admin" := JBool true; "gcpAccess" := JBool true ]}.
Definition carol : UserRecord :=
  mkUser None None false "pw-carol" ∅.

Definition hello : bytes := String.list_byte_of_string "hello".
Definition report : bytes := String.list_byte_of_string "quarterly report".

Definition net (url : string) : option HttpResponse :=
  if String.eqb url "https://hot.test/u1/a.txt"
  then Some (mkResponse 200 hello (Some "text/plain"))
  else if String.eqb url "https://hot.test/u1/gone.txt"
  then Some (mkResponse 404 [] None)
  else None.

(** Two accounts, one hot object of alice, two cold objects of alice. *)
Definition world : World :=
  mkWorld
    {[ "u1" := alice; "u2" := bob; "u3" := carol ]}
    ∅
    {[ "u1/a.txt" := mkBlob hello "text/plain" ]}
    {[ "u1/a.txt" := mkBlob hello "text/plain";
       "u1/b.txt" := mkBlob report "application/pdf" ]}
    {[ ("u1", "a.txt") := cold_url "u1/a.txt"; ("u1", "b.txt") := cold_url "u1/b.txt" ]}
    ∅
    net
    (fun _ _ => false)
    [].

(** The same world before anything of alice was archived. *)
Definition hot_world : World :=
  mkWorld (users world) ∅ (hot world) ∅ ∅ ∅ net (fun _ _ => false) [].

Definition alice_auth : AuthData := mkAuth "u1" ∅.
Definition bob_auth : AuthData :=
  mkAuth "u2" {[ "admin" := JBool true; "gcpAccess" := JBool true ]}.

Definition as_alice : CallableContext := mkContext (Some alice_auth).
Definition as_bob : CallableContext := mkContext (Some bob_auth).
Definition anonymous : CallableContext := mkContext None.

(** A table of 1500 accounts: two pages of the listing. *)
Definition account (i : nat) : string * UserRecord :=
  ("acct" +:+ pretty i,
   mkUser (Some ("user" +:+ pretty i +:+ "@example.com")) None false "secret" ∅).

Definition crowd : World :=
  mkWorld (list_to_map (map account (seq 0 1500))) ∅ ∅ ∅ ∅ ∅
    (fun _ => None) (fun _ _ => false) [].

(** The three stages of receiving [a.txt], [missing.txt], [b.txt]. *)
Definition received_a : ReceiveView * World :=
  handleReceiveFiles (Some alice_auth) ["a.txt"] world.
Definition missing_call : Outcome Response * World :=
  downloadFromGCPBucket "missing.txt" as_alice (snd received_a).
Definition received_b : ReceiveView * World :=
  handleReceiveFiles (Some alice_auth) ["b.txt"] (snd missing_call).

End Sample.

(* ===================================================================== *)
(** ** The other client components *)
(* ===================================================================== *)

(** The uid a lifecycle call names, if it names one. *)
Definition lifecycle_target (c : LifecycleCall) : option JsVal :=
  match c with
  | CallFetchUsers _ => None
  | CallResetUserPassword _ uid => Some uid
  | CallDisableUserAccount uid => Some uid
  | CallEnableUserAccount uid => Some uid
  | CallDeleteUserAccount uid => Some uid
  end.

(** [user.getIdToken(true)]: the refreshed token carries the custom claims
    the account has at that moment. *)
Definition getIdToken (uid : string) (w : World) : option AuthData :=
  (fun u => mkAuth uid (ur_customClaims u)) <$> users w !! uid.

(** *** Adminpage: [handleAdminAction] *)

Inductive AdminAction : Type :=
| resetPassword
| disableAccount
| deleteAccount
| enableAccount.

(** [data.message] of a response. *)
Definition response_message (r : Response) : string :=
  match r with
  | RMessage m => m
  | RSuccess m => m
  | _ => ""
  end.

(** [error.message] of what a call rejects with. *)
Definition error_message (e : Exn) : string :=
  match e with
  | HttpsError _ m => m
  | JsError m => m
  end.

(** [{ ...user, disabled: b }]. *)
Definition with_disabled (b : bool) (user : string * option string * option string * bool)
    : string * option string * option string * bool :=
  (fst (fst (fst user)), snd (fst (fst user)), snd (fst user), b).

(** [handleAdminAction(action, uid)]: the alert shown and the new [users]
    state of the page. *)
Definition handleAdminAction (random36 : string) (currentUser : option AuthData)
    (action : AdminAction) (uid : string)
    (userList : list (string * option string * option string * bool)) (w : World)
    : (string * list (string * option string * option string * bool)) * World :=
  let call :=
    match action with
    | resetPassword => resetUserPassword random36 (JStr uid)
    | disableAccount => disableUserAccount (JStr uid)
    | enableAccount => enableUserAccount (JStr uid)
    | deleteAccount => deleteUserAccount (JStr uid)
    end in
  match call (mkContext currentUser) w with
  | (Ok data, w1) =>
      ((response_message data,
        match action with
        | deleteAccount =>
            List.filter (fun user => negb (String.eqb (view_uid user) uid)) userList
        | disableAccount =>
            map (fun user => if String.eqb (view_uid user) uid
                             then with_disabled true user else user) userList
        | enableAccount =>
            map (fun user => if String.eqb (view_uid user) uid
                             then with_disabled false user else user) userList
        | resetPassword => userList
        end), w1)
  | (Throw e, w1) =>
      (("Failed to perform action: " +:+
        (if truthy (JStr (error_message e)) then error_message e else "Unknown error"),
        userList), w1)
  end.

(** *** The file lists: selection and [handleDeleteFiles] *)

(** The checkbox handler: [prev.includes(name) ? prev.filter(...) : [...prev, name]]. *)
Definition toggle_selected (name : string) (prev : list string) : list string :=
  if existsb (String.eqb name) prev
  then List.filter (fun n => negb (String.eqb n name)) prev
  else prev ++ [name].

(** [handleSelectAll()]. *)
Definition handleSelectAll (files : list (string * string)) (selectedFiles : list string)
    : list string :=
  if (length selectedFiles =? length files)%nat then [] else map fst files.

(** The [for] loop of [handleDeleteFiles]. *)
Fixpoint delete_loop (user : AuthData) (selectedFiles : list string) : Eff unit :=
  match selectedFiles with
  | [] => ret tt
  | fileName :: rest =>
      deleteObject (object_key (auth_uid user) fileName);;
      delete_loop user rest
  end.

(** [handleDeleteFiles()]. *)
Definition handleDeleteFiles (currentUser : option AuthData) (selectedFiles : list string)
    (w : World) : MoveView * World :=
  match currentUser with
  | None => (MoveError "User is not authenticated.", w)
  | Some user =>
      match delete_loop user selectedFiles w with
      | (Ok _, w1) => (MoveAlert "Selected files deleted successfully.", w1)
      | (Throw _, w1) => (MoveError "Failed to delete selected files. Please try again.", w1)
      end
  end.

(** *** AuthProvider, ProtectedRoute, Main *)

(** [fetchAdminStatus]: the flag it sets, from what [getDoc] gave. *)
Definition fetchAdminStatus (userDoc : Outcome (option (gmap string JsVal))) : bool :=
  match userDoc with
  | Ok (Some data) => bool_decide (data !! "isAdmin" = Some (JBool true))
  | Ok None => false
  | Throw _ => false
  end.

Inductive Rendered : Type :=
| RenderLoading
| RenderNavigate (to : string)
| RenderChildren.

(** [ProtectedRoute]. *)
Definition ProtectedRoute (loading : bool) (currentUser : option AuthData)
    (isAdmin adminOnly : bool) : Rendered :=
  if loading then RenderLoading
  else match currentUser with
       | None => RenderNavigate "/login"
       | Some _ =>
           if adminOnly && negb isAdmin then RenderNavigate "/main" else RenderChildren
       end.

(** [handleSetAdmin()] of Main: the alert shown; [currentUser] is the uid and
    the email of the signed-in user. *)
Definition handleSetAdmin (currentUser : option (string * option string)) : Eff string :=
  match currentUser with
  | Some (uid, Some email) =>
      if String.eqb email "joshabrams40@gmail.com"
      then
        setUserDocMerge uid {[ "isAdmin" := JBool true ]};;
        ret "Admin access granted."
      else ret "Admin access can only be granted to 'joshabrams40@gmail.com'."
  | _ => ret "Admin access can only be granted to 'joshabrams40@gmail.com'."
  end.

(* ===================================================================== *)
(** ** Failure scenarios *)
(* ===================================================================== *)

Module Scenario.

Definition with_faults (f : nat -> BackendOp -> bool) (w : World) : World :=
  mkWorld (users w) (userDocs w) (hot w) (cold w) (gcpFiles w) (tmp w) (web w) f (trace w).

(** Firestore rejects every write to the index. *)
Definition index_down : World :=
  with_faults (fun _ op => match op with IndexSet _ _ => true | _ => false end)
    Sample.hot_world.

(** The coldline bucket refuses every delete. *)
Definition cold_locked : World :=
  with_faults (fun _ op => match op with ColdDelete _ => true | _ => false end)
    Sample.world.

(** Firebase Storage refuses every delete by the client. *)
Definition hot_locked : World :=
  with_faults (fun _ op => match op with HotDeleteObject _ => true | _ => false end)
    Sample.hot_world.

(** Firestore rejects every write to [users/{uid}]. *)
Definition firestore_down : World :=
  with_faults (fun _ op => match op with FirestoreSetUserDoc _ => true | _ => false end)
    Sample.world.

(** What the admin page shows after [fetchUsers] on the sample world. *)
Definition shown_users : list (string * option string * option string * bool) :=
  map user_view (map_to_list (users Sample.world)).

(** The hot files of alice as her file list shows them. *)
Definition alice_files : list (string * string) :=
  [("gone.txt", "https://hot.test/u1/gone.txt"); ("a.txt", "https://hot.test/u1/a.txt")].

End Scenario.

(* ===================================================================== *)
(** ** Proof support *)
(* ===================================================================== *)

Ltac eff_cbn :=
  cbn [fst snd users userDocs hot cold gcpFiles tmp web faults trace
       with_users with_userDocs with_hot with_cold with_gcpFiles with_tmp with_trace] in *.

(** Unfolds the monad and the backend calls down to matches on the world. *)
Ltac eff_unfold :=
  unfold setCustomUserClaims, getUserByEmail, updateUser, deleteUser, listUsers,
    setUserDocMerge, fetch, stage_write, unlinkSync, bucket_upload, bucket_getFiles,
    file_download, file_delete, firebaseFile_save, deleteObject, index_set, index_delete,
    attempt, get, modify, bind, try_catch, try_finally, ret, throw in *;
  eff_cbn.

(** Splits on the first match or conditional that blocks a hypothesis or the goal. *)
Ltac eff_split :=
  match goal with
  | H : context [match ?x with _ => _ end] |- _ =>
      destruct x eqn:?; eff_cbn
  | |- context [match ?x with _ => _ end] =>
      destruct x eqn:?; eff_cbn
  end.

Ltac eff_go := eff_unfold; repeat (simplify_eq; try eff_split); simplify_eq; eff_cbn.

Lemma try_catch_throw_inv {A} (m : Eff A) (e e' : Exn) (w : World) :
  fst (try_catch m (fun _ => throw e) w) = Throw e' -> e' = e.
Proof.
  unfold try_catch, throw. destruct (m w) as [[a|e0] w1]; cbn; congruence.
Qed.

Lemma try_finally_fst {A} (m : Eff A) (c : Eff unit) (w : World) :
  fst (try_finally m c w) = fst (m w).
Proof. unfold try_finally. destruct (m w); reflexivity. Qed.

(** *** Strings *)

Lemma length_append (s t : string) :
  String.length (s +:+ t) = String.length s + String.length t.
Proof.
  induction s as [|c s IH]; [reflexivity|].
  change (String c s +:+ t) with (String c (s +:+ t)). cbn. f_equal. exact IH.
Qed.

Lemma substring_whole (s : string) : substring 0 (String.length s) s = s.
Proof. induction s as [|c s IH]; cbn; [reflexivity|]. rewrite IH. reflexivity. Qed.

Lemma substring_append_r (p t : string) :
  substring (String.length p) (String.length t) (p +:+ t) = t.
Proof.
  induction p as [|c p IH]; [apply substring_whole|].
  change (String c p +:+ t) with (String c (p +:+ t)). cbn. exact IH.
Qed.

Lemma substring_split (s : string) (i : nat) :
  i <= String.length s ->
  s = substring 0 i s +:+ substring i (String.length s - i) s.
Proof.
  revert i. induction s as [|c s IH]; intros i Hi.
  - destruct i; reflexivity.
  - destruct i as [|i]; cbn in *.
    + rewrite substring_whole. reflexivity.
    + change (String c ?a +:+ ?b) with (String c (a +:+ b)). f_equal. apply IH. lia.
Qed.

Lemma endsWith_spec (s suffix : string) :
  endsWith s suffix = true <-> exists p, s = p +:+ suffix.
Proof.
  unfold endsWith. rewrite andb_true_iff, Nat.leb_le, String.eqb_eq. split.
  - intros [Hle Heq]. exists (substring 0 (String.length s - String.length suffix) s).
    pose proof (substring_split s (String.length s - String.length suffix)) as Hs.
    replace (String.length s - (String.length s - String.length suffix))
      with (String.length suffix) in Hs by lia.
    rewrite Heq in Hs. apply Hs. lia.
  - intros [p ->]. rewrite length_append. split; [lia|].
    replace (String.length p + String.length suffix - String.length suffix)
      with (String.length p) by lia.
    apply substring_append_r.
Qed.

Lemma slice_last_length (k : nat) (s : string) :
  String.length (slice_last k s) = Nat.min k (String.length s).
Proof.
  unfold slice_last.
  assert (H : forall t n m, n + m <= String.length t -> String.length (substring n m t) = m).
  { induction t as [|c t IH]; intros n m Hn; cbn in *.
    - destruct n, m; cbn in *; try lia; reflexivity.
    - destruct n as [|n]; [destruct m as [|m]; cbn; [reflexivity|]|].
      + f_equal. apply (IH 0). cbn. lia.
      + apply IH. lia. }
  destruct (le_lt_dec k (String.length s)) as [Hle|Hlt].
  - rewrite H by lia. lia.
  - replace (String.length s - k) with 0 by lia.
    rewrite Nat.min_r by lia.
    clear H. revert k Hlt. induction s as [|c s IH]; intros k Hlt; cbn in *.
    + destruct k; reflexivity.
    + destruct k as [|k]; [lia|]. cbn. f_equal. apply IH. lia.
Qed.

(** *** The admin gate *)

Lemma checkAdminAuth_denied request w :
  has_admin_claim request = false ->
  checkAdminAuth request w =
    (Throw (HttpsError permission_denied "You must be an admin to perform this action."), w).
Proof.
  unfold has_admin_claim, checkAdminAuth. intros H.
  destruct (auth request) as [a|]; [|reflexivity].
  rewrite H. reflexivity.
Qed.

Lemma checkAdminAuth_granted request w :
  has_admin_claim request = true -> checkAdminAuth request w = (Ok tt, w).
Proof.
  unfold has_admin_claim, checkAdminAuth. intros H.
  destruct (auth request) as [a|]; [|discriminate].
  rewrite H. reflexivity.
Qed.

(* ===================================================================== *)
(** ** Claims and the admin gate *)
(* ===================================================================== *)

(** C1 (as amended). Each account lifecycle operation, called with a token
    that lacks the admin claim, throws permission-denied and leaves the world
    as it was: no account record is touched and no backend is called.
    [setCustomAdminClaims] is gated on authentication alone: without an auth
    context it throws unauthenticated and leaves the world as it was, and for
    an authenticated caller the token plays no part in what it does. *)
Theorem lifecycle_requires_admin (c : LifecycleCall) (email isAdmin : JsVal)
    (request : CallableContext) (w : World) :
  has_admin_claim request = false ->
  run_lifecycle c request w =
    Some (Throw (HttpsError permission_denied "You must be an admin to perform this action."), w)
  /\ (auth request = None ->
      setCustomAdminClaims email isAdmin request w =
        (Throw (HttpsError unauthenticated "You must be authenticated to set custom claims."), w))
  /\ (forall a a', auth request = Some a ->
      setCustomAdminClaims email isAdmin request w =
        setCustomAdminClaims email isAdmin (mkContext (Some a')) w).
Proof.
  intros H. split; [|split].
  - destruct c; cbn [run_lifecycle];
      unfold fetchUsers, resetUserPassword, disableUserAccount, enableUserAccount,
        deleteUserAccount, bind;
      rewrite (checkAdminAuth_denied _ _ H); reflexivity.
  - intros Hnone. unfold setCustomAdminClaims. rewrite Hnone. reflexivity.
  - intros a a' Hsome. unfold setCustomAdminClaims. rewrite Hsome. reflexivity.
Qed.

Lemma lifecycle_requires_admin_witness :
  run_lifecycle (CallDeleteUserAccount (JStr "u2")) Sample.as_alice Sample.world =
    Some (Throw (HttpsError permission_denied "You must be an admin to perform this action."),
          Sample.world)
  /\ setCustomAdminClaims (JStr "alice@example.com") (JBool true) Sample.anonymous Sample.world =
       (Throw (HttpsError unauthenticated "You must be authenticated to set custom claims."),
        Sample.world).
Proof.
  split.
  - apply (lifecycle_requires_admin (CallDeleteUserAccount (JStr "u2")) JNull JNull
             Sample.as_alice Sample.world).
    vm_compute. reflexivity.
  - apply (lifecycle_requires_admin (CallFetchUsers 1) (JStr "alice@example.com") (JBool true)
             Sample.anonymous Sample.world); reflexivity.
Defined.

(** C1, as stated, fails for [setCustomAdminClaims]: alice, whose token has
    no admin claim, makes herself an administrator. *)
Lemma setCustomAdminClaims_open_to_any_caller :
  has_admin_claim Sample.as_alice = false /\
  fst (setCustomAdminClaims (JStr "alice@example.com") (JBool true) Sample.as_alice Sample.world)
    = Ok (RSuccess "Custom claims updated for user: alice@example.com") /\
  (users (snd (setCustomAdminClaims (JStr "alice@example.com") (JBool true)
                 Sample.as_alice Sample.world)) !! "u1")
    ≫= (fun u => ur_customClaims u !! "admin") = Some (JBool true) /\
  (users Sample.world !! "u1") ≫= (fun u => ur_customClaims u !! "admin") = None.
Proof. vm_compute. repeat split; reflexivity. Qed.

Lemma setCustomUserClaims_inv uid claims w w' :
  setCustomUserClaims uid claims w = (Ok tt, w') ->
  exists u, users w !! uid = Some u /\
    w' = with_users (insert uid (set_claims claims u))
           (with_trace (fun t => t ++ [AuthSetCustomUserClaims uid]) w).
Proof.
  intros H. eff_go. eexists. split; [eassumption|reflexivity].
Qed.

(** C9. A successful [grantGCPAccess] leaves the caller with the claim set
    [{ gcpAccess: true }] and nothing else: an admin claim held before is
    gone. The other accounts are untouched. *)
Theorem grantGCPAccess_replaces_claims (context : CallableContext) (w w' : World) (r : Response) :
  grantGCPAccess context w = (Ok r, w') ->
  exists a u,
    auth context = Some a /\
    users w' !! auth_uid a = Some u /\
    ur_customClaims u = {[ "gcpAccess" := JBool true ]} /\
    ur_customClaims u !! "admin" = None /\
    (forall uid, uid <> auth_uid a -> users w' !! uid = users w !! uid).
Proof.
  unfold grantGCPAccess. intros H.
  destruct (auth context) as [a|]; [|discriminate].
  unfold try_catch, bind at 1 in H.
  destruct (setCustomUserClaims _ _ w) as [[[]|e] w1] eqn:Hset; [|discriminate].
  apply setCustomUserClaims_inv in Hset as (u & Hu & ->).
  cbn in H. simplify_eq.
  exists a, (set_claims {[ "gcpAccess" := JBool true ]} u). cbn.
  split; [reflexivity|]. split; [apply lookup_insert_eq|].
  split; [reflexivity|]. split; [reflexivity|].
  intros uid Hne. apply lookup_insert_ne. congruence.
Qed.

Lemma grantGCPAccess_replaces_claims_witness :
  exists a u,
    auth Sample.as_bob = Some a /\
    users (snd (grantGCPAccess Sample.as_bob Sample.world)) !! auth_uid a = Some u /\
    ur_customClaims u = {[ "gcpAccess" := JBool true ]} /\
    ur_customClaims u !! "admin" = None /\
    (forall uid, uid <> auth_uid a ->
       users (snd (grantGCPAccess Sample.as_bob Sample.world)) !! uid = users Sample.world !! uid).
Proof.
  apply (grantGCPAccess_replaces_claims Sample.as_bob Sample.world _
           (RMessage "GCP access granted successfully. Please refresh your token.")).
  vm_compute. reflexivity.
Defined.

(** C10. The creation trigger sets no claim for an account without an email
    (absent or empty); otherwise it sets the claims to [{ gcpAccess: b }],
    where [b] holds exactly when the email ends with ["@example.com"]. *)
Theorem setCustomClaims_on_create (uid : string) (email : option string) (w : World) :
  match email with
  | None => setCustomClaims uid email w = (Ok tt, w)
  | Some e =>
      (e = "" -> setCustomClaims uid email w = (Ok tt, w)) /\
      (forall u,
        e <> "" ->
        users w !! uid = Some u ->
        faults w (length (trace w)) (AuthSetCustomUserClaims uid) = false ->
        exists b w',
          setCustomClaims uid email w = (Ok tt, w') /\
          users w' = <[uid := set_claims {[ "gcpAccess" := JBool b ]} u]> (users w) /\
          (b = true <-> exists p, e = p +:+ "@example.com"))
  end.
Proof.
  destruct email as [e|]; [|reflexivity]. split.
  - intros ->. reflexivity.
  - intros u He Hu Hf.
    exists (endsWith e "@example.com"). eexists.
    unfold setCustomClaims. cbn [truthy].
    apply String.eqb_neq in He. rewrite He. cbn [negb].
    eff_unfold. rewrite Hf. eff_cbn. rewrite Hu.
    split; [reflexivity|]. split; [reflexivity|]. apply endsWith_spec.
Qed.

Lemma setCustomClaims_on_create_witness :
  exists b w',
    setCustomClaims "u1" (Some "alice@example.com") Sample.world = (Ok tt, w') /\
    users w' = <[ "u1" := set_claims {[ "gcpAccess" := JBool b ]} Sample.alice]>
                 (users Sample.world) /\
    (b = true <-> exists p, "alice@example.com" = p +:+ "@example.com").
Proof.
  apply (setCustomClaims_on_create "u1" (Some "alice@example.com") Sample.world).
  - discriminate.
  - vm_compute. reflexivity.
  - reflexivity.
Defined.

(* ===================================================================== *)
(** ** The cold tier *)
(* ===================================================================== *)

(** C3 (as amended). A tier operation called without an auth context throws
    unauthenticated and leaves the world as it was. For an authenticated
    caller the claims of the token play no part: the call does the same
    whatever they are, and no tier operation ever throws
    permission-denied. *)
Theorem tier_requires_authentication_only (c : TierCall) (context : CallableContext) (w : World) :
  (auth context = None ->
     run_tier c context w = (Throw (HttpsError unauthenticated "User not authenticated."), w))
  /\ (forall a claims, auth context = Some a ->
        run_tier c context w = run_tier c (mkContext (Some (mkAuth (auth_uid a) claims))) w)
  /\ (forall message, fst (run_tier c context w) <> Throw (HttpsError permission_denied message)).
Proof.
  split; [|split].
  - intros H. destruct c; cbn [run_tier];
      unfold uploadToGCPBucket, listGCPFiles, downloadFromGCPBucket; rewrite H; reflexivity.
  - intros a claims H. destruct c; cbn [run_tier];
      unfold uploadToGCPBucket, listGCPFiles, downloadFromGCPBucket; rewrite H; reflexivity.
  - intros message. destruct c; cbn [run_tier];
      unfold uploadToGCPBucket, listGCPFiles, downloadFromGCPBucket;
      destruct (auth context) as [a|]; try (cbn; discriminate).
    + rewrite try_finally_fst. intros H. apply try_catch_throw_inv in H. discriminate.
    + destruct (negb (truthy (JStr fileName))); [cbn; discriminate|].
      intros H. apply try_catch_throw_inv in H. discriminate.
    + intros H. apply try_catch_throw_inv in H. discriminate.
Qed.

Lemma tier_requires_authentication_only_witness :
  run_tier CallListGCPFiles Sample.anonymous Sample.world =
    (Throw (HttpsError unauthenticated "User not authenticated."), Sample.world).
Proof.
  apply (tier_requires_authentication_only CallListGCPFiles Sample.anonymous Sample.world).
  reflexivity.
Defined.

(** C3, as stated, fails: alice lists her cold files without [gcpAccess]. *)
Lemma listGCPFiles_without_gcpAccess :
  has_gcpAccess Sample.as_alice = false /\
  fst (run_tier CallListGCPFiles Sample.as_alice Sample.world) =
    Ok (RFiles [("a.txt", cold_url "u1/a.txt"); ("b.txt", cold_url "u1/b.txt")]).
Proof. vm_compute. split; reflexivity. Qed.

(** *** Archive *)

Lemma uploadToGCPBucket_ok_inv fileName fileUrl context w r w' :
  uploadToGCPBucket fileName fileUrl context w = (Ok r, w') ->
  exists a response,
    auth context = Some a /\
    web w fileUrl = Some response /\
    resp_ok response = true /\
    cold w' = <[object_key (auth_uid a) fileName :=
                  mkBlob (resp_body response)
                    (or_default (resp_contentType response) "application/octet-stream")]>
                (cold w) /\
    gcpFiles w' = <[(auth_uid a, fileName) := cold_url (object_key (auth_uid a) fileName)]>
                    (gcpFiles w) /\
    hot w' = hot w /\ users w' = users w /\ userDocs w' = userDocs w.
Proof.
  unfold uploadToGCPBucket. intros H.
  destruct (auth context) as [a|]; [|discriminate].
  exists a. eff_go.
  all: rewrite lookup_insert_eq in *; simplify_eq.
  all: eexists; split_and!; try eassumption; try reflexivity.
  all: apply negb_false_iff; assumption.
Qed.

(** C5. When the fetch of the source fails (the call fails, the host is
    unreachable, or the status is not a success), [uploadToGCPBucket] throws
    and the durable state is what it was: nothing is written to the cold
    bucket and no index entry is created or changed. For an authenticated
    caller the error is the internal one. *)
Theorem uploadToGCPBucket_fetch_failure fileName fileUrl context w r w' :
  fetch_fails fileUrl w ->
  uploadToGCPBucket fileName fileUrl context w = (r, w') ->
  is_ok r = false /\
  durable w' = durable w /\
  (forall a, auth context = Some a -> r = Throw (HttpsError internal "File upload failed.")).
Proof.
  unfold uploadToGCPBucket, fetch_fails, durable. intros Hf H.
  destruct (auth context) as [a|].
  - destruct Hf as [Hf|[Hf|(resp & Hf & Hok)]]; eff_unfold.
    + rewrite Hf in H. eff_go; repeat split; intros; simplify_eq; reflexivity.
    + destruct (faults w _ _); eff_cbn; [|rewrite Hf in H];
        eff_go; repeat split; intros; simplify_eq; reflexivity.
    + destruct (faults w _ _); eff_cbn; [|rewrite Hf in H; eff_cbn; rewrite Hok in H];
        eff_go; repeat split; intros; simplify_eq; reflexivity.
  - unfold throw in H. simplify_eq. repeat split. intros; congruence.
Qed.

Lemma uploadToGCPBucket_fetch_failure_witness :
  is_ok (fst (uploadToGCPBucket "gone.txt" "https://hot.test/u1/gone.txt"
                Sample.as_alice Sample.hot_world)) = false /\
  durable (snd (uploadToGCPBucket "gone.txt" "https://hot.test/u1/gone.txt"
                  Sample.as_alice Sample.hot_world)) = durable Sample.hot_world /\
  (forall a, auth Sample.as_alice = Some a ->
     fst (uploadToGCPBucket "gone.txt" "https://hot.test/u1/gone.txt"
            Sample.as_alice Sample.hot_world)
     = Throw (HttpsError internal "File upload failed.")).
Proof.
  apply (uploadToGCPBucket_fetch_failure "gone.txt" "https://hot.test/u1/gone.txt"
           Sample.as_alice Sample.hot_world).
  - right. right. exists (mkResponse 404 [] None). split; reflexivity.
  - apply surjective_pairing.
Defined.

Lemma deleteObject_ok_inv key w w' :
  deleteObject key w = (Ok tt, w') ->
  is_Some (hot w !! key) /\ hot w' = delete key (hot w) /\
  cold w' = cold w /\ gcpFiles w' = gcpFiles w.
Proof. intros H. eff_go. repeat split; eauto. Qed.

Lemma move_loop_ok user files selectedFiles w w' :
  move_loop user files selectedFiles w = (Ok tt, w') ->
  (forall k, hot w !! k = None -> hot w' !! k = None) /\
  (forall k, is_Some (cold w !! k) -> is_Some (cold w' !! k)) /\
  (forall k, is_Some (gcpFiles w !! k) -> is_Some (gcpFiles w' !! k)) /\
  (forall fileName,
     In fileName selectedFiles -> In fileName (map fst files) ->
     hot w' !! object_key (auth_uid user) fileName = None /\
     is_Some (cold w' !! object_key (auth_uid user) fileName) /\
     is_Some (gcpFiles w' !! (auth_uid user, fileName))).
Proof.
  revert w. induction selectedFiles as [|fileName rest IH]; intros w H.
  - cbn in H. unfold ret in H. simplify_eq. split_and?; auto. intros ? [].
  - cbn [move_loop] in H.
    destruct (List.find _ files) as [file|] eqn:Hfind.
    + apply find_some in Hfind as [Hin Hname]. apply String.eqb_eq in Hname.
      unfold bind at 1 in H.
      destruct (uploadToGCPBucket _ _ _ w) as [[r|e] w1] eqn:Hup; [|discriminate].
      apply uploadToGCPBucket_ok_inv in Hup
        as (a & resp & Ha & _ & _ & Hcold & Hidx & Hhot & _). cbn in Ha. simplify_eq.
      unfold bind at 1 in H.
      destruct (deleteObject _ w1) as [[[]|e] w2] eqn:Hdel; [|discriminate].
      apply deleteObject_ok_inv in Hdel as (_ & Hhot2 & Hcold2 & Hidx2).
      apply IH in H as (Hh & Hc & Hi & Hsel).
      assert (Hh1 : forall k, hot w !! k = None -> hot w2 !! k = None).
      { intros k Hk. rewrite Hhot2, Hhot. rewrite lookup_delete. case_decide; auto. }
      assert (Hc1 : forall k, is_Some (cold w !! k) -> is_Some (cold w2 !! k)).
      { intros k Hk. rewrite Hcold2, Hcold. rewrite lookup_insert. case_decide; eauto. }
      assert (Hi1 : forall k, is_Some (gcpFiles w !! k) -> is_Some (gcpFiles w2 !! k)).
      { intros k Hk. rewrite Hidx2, Hidx. rewrite lookup_insert. case_decide; eauto. }
      split_and?; auto.
      intros f [<-|Hrest] Hf; [|auto].
      split_and?.
      * apply Hh. rewrite Hhot2. apply lookup_delete_eq.
      * apply Hc. rewrite Hcold2, Hcold, lookup_insert_eq. eauto.
      * apply Hi. rewrite Hidx2, Hidx, lookup_insert_eq. eauto.
    + apply IH in H as (Hh & Hc & Hi & Hsel). split_and?; auto.
      intros f [<-|Hrest] Hf; [|auto].
      exfalso. apply in_map_iff in Hf as (file & Hname & Hin).
      apply (find_none _ _ Hfind) in Hin. apply String.eqb_neq in Hin. congruence.
Qed.

(** C2 (as amended). After a successful [uploadToGCPBucket] the object is in
    the cold bucket at [{uid}/{fileName}] and its index entry exists, and the
    hot bucket is as it was: the function deletes nothing there. The hot
    object is deleted by the client, in [moveToGCPBucket], after the call
    returns; when that loop completes, every selected file it found is
    absent from the hot bucket, present in the cold bucket and indexed. *)
Theorem archive_then_client_delete (user : AuthData) (files : list (string * string)) (w : World) :
  (forall fileName fileUrl r w',
     uploadToGCPBucket fileName fileUrl (mkContext (Some user)) w = (Ok r, w') ->
     is_Some (cold w' !! object_key (auth_uid user) fileName) /\
     gcpFiles w' !! (auth_uid user, fileName) =
       Some (cold_url (object_key (auth_uid user) fileName)) /\
     hot w' = hot w)
  /\
  (forall selectedFiles message w',
     moveToGCPBucket (Some user) files selectedFiles w = (MoveAlert message, w') ->
     forall fileName,
       In fileName selectedFiles -> In fileName (map fst files) ->
       hot w' !! object_key (auth_uid user) fileName = None /\
       is_Some (cold w' !! object_key (auth_uid user) fileName) /\
       is_Some (gcpFiles w' !! (auth_uid user, fileName))).
Proof.
  split.
  - intros fileName fileUrl r w' H.
    apply uploadToGCPBucket_ok_inv in H as (a & resp & Ha & _ & _ & Hcold & Hidx & Hhot & _).
    cbn in Ha. simplify_eq.
    rewrite Hcold, Hidx, !lookup_insert_eq. eauto.
  - intros selectedFiles message w' H. unfold moveToGCPBucket in H.
    destruct (move_loop _ _ _ w) as [[[]|e] w1] eqn:Hloop; [|discriminate].
    simplify_eq. apply move_loop_ok in Hloop as (_ & _ & _ & Hsel). exact Hsel.
Qed.

Lemma archive_then_client_delete_witness :
  (is_Some (cold (snd (uploadToGCPBucket "a.txt" "https://hot.test/u1/a.txt"
                         Sample.as_alice Sample.hot_world)) !! "u1/a.txt") /\
   gcpFiles (snd (uploadToGCPBucket "a.txt" "https://hot.test/u1/a.txt"
                    Sample.as_alice Sample.hot_world)) !! ("u1", "a.txt")
     = Some (cold_url "u1/a.txt") /\
   hot (snd (uploadToGCPBucket "a.txt" "https://hot.test/u1/a.txt"
               Sample.as_alice Sample.hot_world)) = hot Sample.hot_world)
  /\
  (hot (snd (moveToGCPBucket (Some Sample.alice_auth) [("a.txt", "https://hot.test/u1/a.txt")]
               ["a.txt"] Sample.hot_world)) !! "u1/a.txt" = None /\
   is_Some (cold (snd (moveToGCPBucket (Some Sample.alice_auth)
                         [("a.txt", "https://hot.test/u1/a.txt")]
                         ["a.txt"] Sample.hot_world)) !! "u1/a.txt") /\
   is_Some (gcpFiles (snd (moveToGCPBucket (Some Sample.alice_auth)
                             [("a.txt", "https://hot.test/u1/a.txt")]
                             ["a.txt"] Sample.hot_world)) !! ("u1", "a.txt"))).
Proof.
  split.
  - apply (proj1 (archive_then_client_delete Sample.alice_auth [] Sample.hot_world)
             "a.txt" "https://hot.test/u1/a.txt" (RMessage "File uploaded successfully.")).
    vm_compute. reflexivity.
  - apply (proj2 (archive_then_client_delete Sample.alice_auth
                    [("a.txt", "https://hot.test/u1/a.txt")] Sample.hot_world)
             ["a.txt"] "Selected files successfully moved to GCP bucket.").
    + vm_compute. reflexivity.
    + left. reflexivity.
    + left. reflexivity.
Defined.

(** C2, as stated, fails: after a successful [uploadToGCPBucket] the hot
    object is still there. *)
Lemma uploadToGCPBucket_keeps_hot_object :
  fst (uploadToGCPBucket "a.txt" "https://hot.test/u1/a.txt" Sample.as_alice Sample.hot_world)
    = Ok (RMessage "File uploaded successfully.") /\
  hot (snd (uploadToGCPBucket "a.txt" "https://hot.test/u1/a.txt"
              Sample.as_alice Sample.hot_world)) !! "u1/a.txt"
    = Some (mkBlob Sample.hello "text/plain").
Proof. vm_compute. split; reflexivity. Qed.

(** *** Retrieve *)

Lemma downloadFromGCPBucket_ok_inv fileName context w r w' :
  downloadFromGCPBucket fileName context w = (Ok r, w') ->
  exists a b,
    auth context = Some a /\ fileName <> "" /\
    cold w !! object_key (auth_uid a) fileName = Some b /\
    trace w' = trace w ++ [ColdDownload (object_key (auth_uid a) fileName);
                           HotSave (object_key (auth_uid a) fileName);
                           ColdDelete (object_key (auth_uid a) fileName);
                           IndexDelete (auth_uid a) fileName] /\
    hot w' = <[object_key (auth_uid a) fileName :=
                 mkBlob (blob_contents b) "application/octet-stream"]> (hot w) /\
    cold w' = delete (object_key (auth_uid a) fileName) (cold w) /\
    gcpFiles w' = delete (auth_uid a, fileName) (gcpFiles w) /\
    users w' = users w /\ userDocs w' = userDocs w.
Proof.
  unfold downloadFromGCPBucket. intros H.
  destruct (auth context) as [a|]; [|discriminate].
  exists a. cbn [truthy] in H.
  destruct (String.eqb_spec fileName "") as [->|Hne]; [discriminate|].
  cbn [negb] in H. eff_go.
  eexists. repeat split; try eassumption; try reflexivity.
  rewrite <- !app_assoc. reflexivity.
Qed.

(** C4. A successful [downloadFromGCPBucket] found the object in the cold
    bucket at [{uid}/{fileName}] and made exactly four backend calls, in this
    order: download from cold, save to hot at the same key, delete from cold,
    delete the index entry. Afterwards the object is absent from cold,
    present in hot with the bytes it had in cold, and not indexed. *)
Theorem downloadFromGCPBucket_moves_to_hot fileName context w r w' :
  downloadFromGCPBucket fileName context w = (Ok r, w') ->
  exists a b,
    auth context = Some a /\
    cold w !! object_key (auth_uid a) fileName = Some b /\
    trace w' = trace w ++ [ColdDownload (object_key (auth_uid a) fileName);
                           HotSave (object_key (auth_uid a) fileName);
                           ColdDelete (object_key (auth_uid a) fileName);
                           IndexDelete (auth_uid a) fileName] /\
    cold w' !! object_key (auth_uid a) fileName = None /\
    hot w' !! object_key (auth_uid a) fileName =
      Some (mkBlob (blob_contents b) "application/octet-stream") /\
    gcpFiles w' !! (auth_uid a, fileName) = None.
Proof.
  intros H. apply downloadFromGCPBucket_ok_inv in H
    as (a & b & Ha & _ & Hb & Htr & Hhot & Hcold & Hidx & _).
  exists a, b. rewrite Hhot, Hcold, Hidx, lookup_insert_eq, !lookup_delete_eq.
  split_and!; auto.
Qed.
Lemma downloadFromGCPBucket_moves_to_hot_witness :
  exists a b,
    auth Sample.as_alice = Some a /\
    cold Sample.world !! object_key (auth_uid a) "b.txt" = Some b /\
    trace (snd (downloadFromGCPBucket "b.txt" Sample.as_alice Sample.world)) =
      trace Sample.world ++ [ColdDownload (object_key (auth_uid a) "b.txt");
                             HotSave (object_key (auth_uid a) "b.txt");
                             ColdDelete (object_key (auth_uid a) "b.txt");
                             IndexDelete (auth_uid a) "b.txt"] /\
    cold (snd (downloadFromGCPBucket "b.txt" Sample.as_alice Sample.world))
      !! object_key (auth_uid a) "b.txt" = None /\
    hot (snd (downloadFromGCPBucket "b.txt" Sample.as_alice Sample.world))
      !! object_key (auth_uid a) "b.txt"
      = Some (mkBlob (blob_contents b) "application/octet-stream") /\
    gcpFiles (snd (downloadFromGCPBucket "b.txt" Sample.as_alice Sample.world))
      !! (auth_uid a, "b.txt") = None.
Proof.
  apply (downloadFromGCPBucket_moves_to_hot "b.txt" Sample.as_alice Sample.world
           (RMessage "File b.txt successfully received and stored.")).
  vm_compute. reflexivity.
Defined.

(** *** The receive loop *)

Lemma receive_loop_acc user l succ failed out w :
  receive_loop user l succ failed out w =
    (let '((s, f, o), w') := receive_loop user l [] [] [] w in
     ((succ ++ s, failed ++ f, out ++ o), w')).
Proof.
  revert succ failed out w. induction l as [|x l IH]; intros succ failed out w.
  - cbn. rewrite !app_nil_r. reflexivity.
  - cbn [receive_loop].
    destruct (downloadFromGCPBucket x _ w) as [[r|e] w1].
    + rewrite (IH (succ ++ [x])), (IH ([] ++ [x])).
      destruct (receive_loop user l [] [] [] w1) as [[[s f] o] w2].
      cbn. rewrite <- !app_assoc. reflexivity.
    + rewrite (IH succ (failed ++ [x])), (IH [] ([] ++ [x])).
      destruct (receive_loop user l [] [] [] w1) as [[[s f] o] w2].
      cbn. rewrite <- !app_assoc. reflexivity.
Qed.

Lemma receive_loop_app user l1 l2 succ failed out w :
  receive_loop user (l1 ++ l2) succ failed out w =
    (let '((s, f, o), w1) := receive_loop user l1 succ failed out w in
     receive_loop user l2 s f o w1).
Proof.
  revert succ failed out w. induction l1 as [|x l1 IH]; intros succ failed out w.
  - reflexivity.
  - cbn [receive_loop app].
    destruct (downloadFromGCPBucket x _ w) as [[r|e] w1]; apply IH.
Qed.

Lemma receive_loop_partition user l w s f o w' :
  receive_loop user l [] [] [] w = ((s, f, o), w') -> Permutation (s ++ f) l.
Proof.
  revert w s f o w'. induction l as [|x l IH]; intros w s f o w' H.
  - cbn in H. simplify_eq. constructor.
  - cbn [receive_loop] in H.
    destruct (downloadFromGCPBucket x _ w) as [[r|e] w1];
      rewrite receive_loop_acc in H;
      destruct (receive_loop user l [] [] [] w1) as [[[s1 f1] o1] w2] eqn:Hl;
      simplify_eq; apply IH in Hl; cbn.
    + constructor. exact Hl.
    + symmetry. apply Permutation_cons_app. symmetry. exact Hl.
Qed.

Lemma downloadFromGCPBucket_absent fileName user w :
  cold w !! object_key (auth_uid user) fileName = None ->
  is_ok (fst (downloadFromGCPBucket fileName (mkContext (Some user)) w)) = false.
Proof.
  intros Habs.
  destruct (downloadFromGCPBucket fileName _ w) as [[r|e] w'] eqn:H; [|reflexivity].
  apply downloadFromGCPBucket_ok_inv in H as (a & b & Ha & _ & Hb & _).
  cbn in Ha. simplify_eq.
Qed.

(** C6 (amended). In [handleReceiveFiles] a file whose call fails does not
    end the batch: the files after it are processed exactly as a batch of
    their own, started in the world the failure left. The handler puts the
    failed name in its list [failedDownloads] and in an error line of the
    console, the other names are handled by their own batches, and together
    its two lists hold every selected name exactly once. What it shows is
    no list of names: it is one alert with the two counts, and none when no
    file succeeded; no error is set. *)
Theorem handleReceiveFiles_continues_after_failure
    (user : AuthData) (before : list string) (fileName : string) (after : list string)
    (w w1 w2 w3 : World) (v1 v3 : ReceiveView) (e : Exn) :
  handleReceiveFiles (Some user) before w = (v1, w1) ->
  downloadFromGCPBucket fileName (mkContext (Some user)) w1 = (Throw e, w2) ->
  handleReceiveFiles (Some user) after w2 = (v3, w3) ->
  exists v,
    handleReceiveFiles (Some user) (before ++ fileName :: after) w = (v, w3) /\
    successfulDownloads v = successfulDownloads v1 ++ successfulDownloads v3 /\
    failedDownloads v = failedDownloads v1 ++ fileName :: failedDownloads v3 /\
    console v =
      console v1 ++
      [ConsoleLog ("Receiving file: " +:+ fileName +:+ " from GCP bucket...");
       ConsoleError ("Error receiving file " +:+ fileName +:+ ":")] ++
      console v3 /\
    Permutation (successfulDownloads v ++ failedDownloads v) (before ++ fileName :: after) /\
    alert v =
      match length (successfulDownloads v) with
      | 0 => None
      | S _ =>
          Some ("Successfully received " +:+ pretty (length (successfulDownloads v)) +:+
                " files. " +:+ pretty (length (failedDownloads v)) +:+
                " files failed to download.")
      end /\
    error v = None.
Proof.
  unfold handleReceiveFiles. intros H1 H2 H3.
  destruct (receive_loop user (before ++ fileName :: after) [] [] [] w)
    as [[[s f] o] w'] eqn:Hall.
  pose proof (receive_loop_partition _ _ _ _ _ _ _ Hall) as Hperm.
  rewrite receive_loop_app in Hall.
  destruct (receive_loop user before [] [] [] w) as [[[sa fa] oa] wa].
  destruct (receive_loop user after [] [] [] w2) as [[[sb fb] ob] wb] eqn:Hafter.
  simplify_eq. cbn [receive_loop] in Hall. rewrite H2 in Hall.
  rewrite receive_loop_acc, Hafter in Hall. simplify_eq.
  eexists. split; [reflexivity|].
  cbn [successfulDownloads failedDownloads console alert error app].
  split_and!; try reflexivity.
  - rewrite <- !app_assoc. reflexivity.
  - rewrite <- !app_assoc. reflexivity.
  - exact Hperm.
  - destruct (length (sa ++ sb)) eqn:Hn; [reflexivity|].
    rewrite <- app_assoc. cbn [app]. rewrite length_app. cbn [length].
    replace (0 <? length fa + S (length fb))%nat with true by (symmetry; apply Nat.ltb_lt; lia).
    reflexivity.
Qed.

Lemma handleReceiveFiles_continues_after_failure_witness :
  exists v,
    handleReceiveFiles (Some Sample.alice_auth) (["a.txt"] ++ "missing.txt" :: ["b.txt"])
      Sample.world = (v, snd Sample.received_b) /\
    successfulDownloads v =
      successfulDownloads (fst Sample.received_a) ++ successfulDownloads (fst Sample.received_b) /\
    failedDownloads v =
      failedDownloads (fst Sample.received_a) ++ "missing.txt" :: failedDownloads (fst Sample.received_b) /\
    console v =
      console (fst Sample.received_a) ++
      [ConsoleLog ("Receiving file: " +:+ "missing.txt" +:+ " from GCP bucket...");
       ConsoleError ("Error receiving file " +:+ "missing.txt" +:+ ":")] ++
      console (fst Sample.received_b) /\
    Permutation (successfulDownloads v ++ failedDownloads v)
      (["a.txt"] ++ "missing.txt" :: ["b.txt"]) /\
    alert v =
      match length (successfulDownloads v) with
      | 0 => None
      | S _ =>
          Some ("Successfully received " +:+ pretty (length (successfulDownloads v)) +:+
                " files. " +:+ pretty (length (failedDownloads v)) +:+
                " files failed to download.")
      end /\
    error v = None.
Proof.
  apply (handleReceiveFiles_continues_after_failure Sample.alice_auth ["a.txt"] "missing.txt"
           ["b.txt"] Sample.world (snd Sample.received_a) (snd Sample.missing_call) (snd Sample.received_b)
           (fst Sample.received_a) (fst Sample.received_b)
           (HttpsError internal "Failed to receive file from GCP bucket.")).
  - apply surjective_pairing.
  - vm_compute. reflexivity.
  - apply surjective_pairing.
Defined.

(** C6, as stated, fails: what [handleReceiveFiles] shows does not name
    the files. Two batches of alice with different succeeded and different
    failed names show the same alert, which carries the two counts only, and
    a batch in which every file fails shows no alert and sets no error. *)
Lemma handleReceiveFiles_alert_hides_names :
  successfulDownloads
    (fst (handleReceiveFiles (Some Sample.alice_auth) ["a.txt"; "missing.txt"] Sample.world))
    = ["a.txt"] /\
  failedDownloads
    (fst (handleReceiveFiles (Some Sample.alice_auth) ["a.txt"; "missing.txt"] Sample.world))
    = ["missing.txt"] /\
  successfulDownloads
    (fst (handleReceiveFiles (Some Sample.alice_auth) ["other.txt"; "b.txt"] Sample.world))
    = ["b.txt"] /\
  failedDownloads
    (fst (handleReceiveFiles (Some Sample.alice_auth) ["other.txt"; "b.txt"] Sample.world))
    = ["other.txt"] /\
  alert (fst (handleReceiveFiles (Some Sample.alice_auth) ["a.txt"; "missing.txt"] Sample.world))
    = Some "Successfully received 1 files. 1 files failed to download." /\
  alert (fst (handleReceiveFiles (Some Sample.alice_auth) ["other.txt"; "b.txt"] Sample.world))
    = Some "Successfully received 1 files. 1 files failed to download." /\
  error (fst (handleReceiveFiles (Some Sample.alice_auth) ["a.txt"; "missing.txt"] Sample.world))
    = None /\
  error (fst (handleReceiveFiles (Some Sample.alice_auth) ["other.txt"; "b.txt"] Sample.world))
    = None /\
  failedDownloads
    (fst (handleReceiveFiles (Some Sample.alice_auth) ["missing.txt"] Sample.world))
    = ["missing.txt"] /\
  alert (fst (handleReceiveFiles (Some Sample.alice_auth) ["missing.txt"] Sample.world))
    = None /\
  error (fst (handleReceiveFiles (Some Sample.alice_auth) ["missing.txt"] Sample.world))
    = None.
Proof. vm_compute. split_and!; reflexivity. Qed.

Example handleReceiveFiles_spec_scenario :
  fst (handleReceiveFiles (Some Sample.alice_auth) ["a.txt"; "missing.txt"; "b.txt"] Sample.world)
  = mkReceiveView
      ["a.txt"; "b.txt"]
      ["missing.txt"]
      [ConsoleLog "Receiving file: a.txt from GCP bucket...";
       ConsoleLog "File a.txt received successfully.";
       ConsoleLog "Receiving file: missing.txt from GCP bucket...";
       ConsoleError "Error receiving file missing.txt:";
       ConsoleLog "Receiving file: b.txt from GCP bucket...";
       ConsoleLog "File b.txt received successfully."]
      (Some "Successfully received 2 files. 1 files failed to download.")
      None.
Proof. vm_compute. reflexivity. Qed.

(* ===================================================================== *)
(** ** Account lifecycle *)
(* ===================================================================== *)

Lemma resetUserPassword_secret (random36 : string) (uid : JsVal) (request : CallableContext)
    (w w' : World) (r : Response) :
  resetUserPassword random36 uid request w = (Ok r, w') ->
  r = RSuccess ("Password reset successfully: " +:+ slice_last 8 random36) /\
  String.length (slice_last 8 random36) = Nat.min 8 (String.length random36) /\
  exists id u, uid = JStr id /\ users w !! id = Some u /\
    users w' = <[id := set_password (slice_last 8 random36) u]> (users w).
Proof.
  unfold resetUserPassword. intros H. unfold bind at 1 in H.
  destruct (checkAdminAuth request w) as [[[]|e] w1] eqn:Hadm; [|discriminate].
  unfold checkAdminAuth in Hadm.
  destruct (negb (truthy uid)); [discriminate|].
  eff_go. split; [reflexivity|]. split; [apply slice_last_length|]. eauto.
Qed.

(** C7 (the code falls short). The secret is the last eight characters of
    the base-36 rendering of the number drawn, so it is shorter than eight
    symbols whenever that rendering is: for [Math.random() = 2^-8], rendered
    ["0.0529"], an admin's reset of alice succeeds and returns a secret of
    six symbols. *)
Theorem resetUserPassword_short_secret :
  fst (resetUserPassword "0.0529" (JStr "u1") Sample.as_bob Sample.world)
    = Ok (RSuccess "Password reset successfully: 0.0529") /\
  ur_password <$> users (snd (resetUserPassword "0.0529" (JStr "u1") Sample.as_bob Sample.world))
                    !! "u1" = Some "0.0529" /\
  String.length (slice_last 8 "0.0529") = 6.
Proof. vm_compute. repeat split; reflexivity. Qed.

(** *** The listing loop *)

Lemma page_tokens_succ m off k :
  page_tokens m off (S k) = Some (off + m) :: page_tokens m (off + m) k.
Proof.
  unfold page_tokens. cbn [seq map]. f_equal; [f_equal; lia|].
  rewrite <- seq_shift, map_map. apply map_ext. intros i. f_equal. lia.
Qed.

Lemma fetchUsers_pages_all (m fuel : nat) :
  0 < m ->
  forall (pageToken : option nat) acc (w : World),
    (forall n t, faults w n (AuthListUsers t) = false) ->
    default 0 pageToken <= length (map_to_list (users w)) ->
    length (map_to_list (users w)) < default 0 pageToken + fuel * m ->
    exists k,
      fetchUsers_pages m fuel pageToken acc w =
        Some (Ok (acc ++ map user_view (drop (default 0 pageToken) (map_to_list (users w)))),
              with_trace
                (fun t => t ++ map AuthListUsers
                                 (pageToken :: page_tokens m (default 0 pageToken) k)) w) /\
      length (map_to_list (users w)) <= default 0 pageToken + S k * m /\
      (k = 0 \/ default 0 pageToken + k * m < length (map_to_list (users w))).
Proof.
  intros Hm. induction fuel as [|fuel IH]; intros pageToken acc w Hf Hoff Hlen.
  - lia.
  - cbn [fetchUsers_pages]. unfold listUsers, attempt, bind, get, ret.
    rewrite Hf. eff_cbn.
    set (all := map_to_list (users w)) in *.
    set (off := default 0 pageToken) in *.
    destruct (off + m <? length all)%nat eqn:Hmore; cbn [lur_pageToken lur_users].
    + apply Nat.ltb_lt in Hmore.
      destruct (IH (Some (off + m)) (acc ++ map user_view (take m (drop off all)))
                  (with_trace (fun t => t ++ [AuthListUsers pageToken]) w))
        as (k & Heq & Hub & Hlb).
      * exact Hf.
      * cbn [from_option id users with_trace]. fold all. lia.
      * cbn [from_option id users with_trace]. fold all. lia.
      * exists (S k). cbn [from_option id users with_trace] in Heq, Hub, Hlb. fold all in Heq, Hub, Hlb.
        rewrite Heq. split; [|lia].
        f_equal. f_equal.
        -- rewrite <- app_assoc, <- map_app. f_equal. f_equal.
           rewrite <- (take_drop m (drop off all)) at 2. rewrite drop_drop. reflexivity.
        -- unfold with_trace. eff_cbn. f_equal.
           rewrite page_tokens_succ, <- app_assoc. reflexivity.
    + apply Nat.ltb_ge in Hmore. exists 0. split; [|lia].
      rewrite take_ge by (rewrite length_drop; lia). reflexivity.
Qed.

(** C8. Called by an admin with fuel for every page, and with a listing
    backend that does not fail, [fetchUsers] returns one entry
    [{ uid, email, displayName, disabled }] for every account of the table
    and no other: the entry of an account carries its uid, its email and
    display name ([null] when it has none) and its disabled flag, the
    entries are as many as the accounts and no uid occurs twice. Nothing
    durable changes. The pages are asked for by 1000, first without a token
    and then with the tokens of the offsets 1000, 2000, ..., and the loop
    stops at the page that reaches the end of the table. *)
Theorem fetchUsers_returns_every_account (fuel : nat) (request : CallableContext) (w : World) :
  has_admin_claim request = true ->
  (forall n t, faults w n (AuthListUsers t) = false) ->
  size (users w) < fuel * 1000 ->
  exists k w' listed,
    fetchUsers fuel request w = Some (Ok (RUsers listed), w') /\
    listed = map (fun p => (fst p, ur_email (snd p), ur_displayName (snd p), ur_disabled (snd p)))
                 (map_to_list (users w)) /\
    durable w' = durable w /\
    trace w' = trace w ++ map AuthListUsers (None :: page_tokens 1000 0 k) /\
    size (users w) <= S k * 1000 /\
    (k = 0 \/ k * 1000 < size (users w)) /\
    length listed = size (users w) /\
    NoDup (map (fun v => fst (fst (fst v))) listed) /\
    (forall uid email displayName disabled,
       In (uid, email, displayName, disabled) listed <->
       exists u, users w !! uid = Some u /\ email = ur_email u /\
                 displayName = ur_displayName u /\ disabled = ur_disabled u).
Proof.
  intros Hadmin Hf Hsize. rewrite <- length_map_to_list in *.
  destruct (fetchUsers_pages_all 1000 fuel ltac:(lia) None [] w Hf) as (k & Heq & Hub & Hlb).
  - cbn [from_option id]. lia.
  - cbn [from_option id]. lia.
  - cbn [from_option id] in *. exists k. do 2 eexists.
    unfold fetchUsers. rewrite (checkAdminAuth_granted _ _ Hadmin), Heq.
    rewrite drop_0. cbn [app].
    split; [reflexivity|]. split; [reflexivity|].
    split; [reflexivity|]. split; [reflexivity|].
    split; [lia|]. split; [lia|]. split; [|split].
    + apply length_map.
    + rewrite map_map. apply NoDup_fst_map_to_list.
    + intros uid email displayName disabled. rewrite in_map_iff. split.
      * intros ([uid' u] & Hv & Hin). unfold user_view in Hv. cbn [fst snd] in Hv.
        simplify_eq. exists u.
        split; [|auto]. apply elem_of_map_to_list, list_elem_of_In. exact Hin.
      * intros (u & Hu & -> & -> & ->). exists (uid, u). split; [reflexivity|].
        apply list_elem_of_In, elem_of_map_to_list. exact Hu.
Qed.

Lemma crowd_size : size (users Sample.crowd) = 1500.
Proof. vm_compute. reflexivity. Qed.

Lemma fetchUsers_two_pages :
  (trace <$> (snd <$> fetchUsers 2 Sample.as_bob Sample.crowd)) = Some [AuthListUsers None; AuthListUsers (Some 1000)]
  /\ fetchUsers 1 Sample.as_bob Sample.crowd = None.
Proof. vm_compute. split; reflexivity. Qed.

Lemma fetchUsers_returns_every_account_witness :
  exists k w' listed,
    fetchUsers 2 Sample.as_bob Sample.crowd = Some (Ok (RUsers listed), w') /\
    listed = map (fun p => (fst p, ur_email (snd p), ur_displayName (snd p), ur_disabled (snd p)))
                 (map_to_list (users Sample.crowd)) /\
    durable w' = durable Sample.crowd /\
    trace w' = trace Sample.crowd ++ map AuthListUsers (None :: page_tokens 1000 0 k) /\
    size (users Sample.crowd) <= S k * 1000 /\
    (k = 0 \/ k * 1000 < size (users Sample.crowd)) /\
    length listed = size (users Sample.crowd) /\
    NoDup (map (fun v => fst (fst (fst v))) listed) /\
    (forall uid email displayName disabled,
       In (uid, email, displayName, disabled) listed <->
       exists u, users Sample.crowd !! uid = Some u /\ email = ur_email u /\
                 displayName = ur_displayName u /\ disabled = ur_disabled u).
Proof.
  apply (fetchUsers_returns_every_account 2 Sample.as_bob Sample.crowd).
  - vm_compute. reflexivity.
  - intros n t. reflexivity.
  - rewrite crowd_size. lia.
Defined.

(* ===================================================================== *)
(** ** Further properties: account lifecycle *)
(* ===================================================================== *)

Lemma checkAdminAuth_ok_inv request w u w' :
  checkAdminAuth request w = (Ok u, w') -> has_admin_claim request = true /\ w' = w.
Proof.
  unfold checkAdminAuth, has_admin_claim. intros H.
  destruct (auth request) as [a|]; [|discriminate].
  destruct (truthy _); [|discriminate]. cbn in H. unfold ret in H. simplify_eq. auto.
Qed.

(** Opens a successful (or arbitrary) lifecycle call past its admin check
    and its uid check. *)
Ltac lifecycle_open H :=
  unfold resetUserPassword, disableUserAccount, enableUserAccount, deleteUserAccount in H;
  unfold bind at 1 in H;
  let Hadm := fresh "Hadm" in
  destruct (checkAdminAuth _ _) as [[[]|?] ?] eqn:Hadm;
  [apply checkAdminAuth_ok_inv in Hadm as [Hadm ->]|].

Lemma set_account_disabled_inv (b : bool) uid request w r w' :
  (if b then disableUserAccount uid request w else enableUserAccount uid request w) = (Ok r, w') ->
  has_admin_claim request = true /\
  exists id u, uid = JStr id /\ users w !! id = Some u /\
    users w' = <[id := set_disabled b u]> (users w).
Proof.
  intros H. destruct b; lifecycle_open H; try discriminate;
    (split; [assumption|]); destruct (negb (truthy uid)); try discriminate;
    eff_go; eauto.
Qed.

(** X1. A successful [disableUserAccount] followed by a successful
    [enableUserAccount] on the same uid leaves the account enabled and
    otherwise as it was (email, display name, password and claims), and the
    other accounts untouched; if the account was enabled at the start, the
    whole user table is back to what it was. *)
Theorem disable_enable_round_trip uid request request' w r1 w1 r2 w2 :
  disableUserAccount uid request w = (Ok r1, w1) ->
  enableUserAccount uid request' w1 = (Ok r2, w2) ->
  exists id u,
    uid = JStr id /\ users w !! id = Some u /\
    users w2 = <[id := set_disabled false u]> (users w) /\
    (ur_disabled u = false -> users w2 = users w).
Proof.
  intros H1 H2.
  apply (set_account_disabled_inv true) in H1 as (_ & id & u & -> & Hu & Hw1).
  apply (set_account_disabled_inv false) in H2 as (_ & id' & u' & Hid & Hu' & Hw2).
  simplify_eq. rewrite Hw1, lookup_insert_eq in Hu'. simplify_eq.
  exists id', u. split_and!; [reflexivity|exact Hu| |].
  - rewrite Hw2, Hw1, insert_insert_eq. reflexivity.
  - intros Hd. rewrite Hw2, Hw1, insert_insert_eq. apply insert_id.
    rewrite Hu. f_equal. destruct u. cbn in *. subst. reflexivity.
Qed.

Lemma disable_enable_round_trip_witness :
  exists id u,
    JStr "u1" = JStr id /\ users Sample.world !! id = Some u /\
    users (snd (enableUserAccount (JStr "u1") Sample.as_bob
                  (snd (disableUserAccount (JStr "u1") Sample.as_bob Sample.world))))
      = <[id := set_disabled false u]> (users Sample.world) /\
    (ur_disabled u = false ->
     users (snd (enableUserAccount (JStr "u1") Sample.as_bob
                   (snd (disableUserAccount (JStr "u1") Sample.as_bob Sample.world))))
       = users Sample.world).
Proof.
  apply (disable_enable_round_trip (JStr "u1") Sample.as_bob Sample.as_bob Sample.world
           (RSuccess "User account disabled successfully.")
           (snd (disableUserAccount (JStr "u1") Sample.as_bob Sample.world))
           (RSuccess "User account enabled successfully.")).
  - vm_compute. reflexivity.
  - vm_compute. reflexivity.
Defined.

(** X2. Disabling an account that was just disabled (or enabling one that
    was just enabled) succeeds again and leaves the user table as it was. *)
Theorem disable_enable_idempotent (b : bool) uid request request' w r1 w1 r2 w2 :
  (if b then disableUserAccount uid request w else enableUserAccount uid request w)
    = (Ok r1, w1) ->
  (if b then disableUserAccount uid request' w1 else enableUserAccount uid request' w1)
    = (Ok r2, w2) ->
  users w2 = users w1.
Proof.
  intros H1 H2.
  apply set_account_disabled_inv in H1 as (_ & id & u & -> & Hu & Hw1).
  apply set_account_disabled_inv in H2 as (_ & id' & u' & Hid & Hu' & Hw2).
  simplify_eq. rewrite Hw1, lookup_insert_eq in Hu'. simplify_eq.
  rewrite Hw2, Hw1, insert_insert_eq. reflexivity.
Qed.

Lemma disable_enable_idempotent_witness :
  users (snd (disableUserAccount (JStr "u1") Sample.as_bob
                (snd (disableUserAccount (JStr "u1") Sample.as_bob Sample.world))))
  = users (snd (disableUserAccount (JStr "u1") Sample.as_bob Sample.world)).
Proof.
  apply (disable_enable_idempotent true (JStr "u1") Sample.as_bob Sample.as_bob Sample.world
           (RSuccess "User account disabled successfully.")
           (snd (disableUserAccount (JStr "u1") Sample.as_bob Sample.world))
           (RSuccess "User account disabled successfully.")).
  - vm_compute. reflexivity.
  - vm_compute. reflexivity.
Defined.

(** X3. A successful [resetUserPassword] replaces the password of the
    target by the generated secret and keeps its disabled flag, its claims,
    its email and its display name. *)
Theorem resetUserPassword_touches_password_only random36 uid request w r w' :
  resetUserPassword random36 uid request w = (Ok r, w') ->
  exists id u u',
    uid = JStr id /\ users w !! id = Some u /\ users w' !! id = Some u' /\
    ur_password u' = slice_last 8 random36 /\
    ur_disabled u' = ur_disabled u /\
    ur_customClaims u' = ur_customClaims u /\
    ur_email u' = ur_email u /\
    ur_displayName u' = ur_displayName u.
Proof.
  intros H. lifecycle_open H; [|discriminate].
  destruct (negb (truthy uid)); [discriminate|].
  eff_go.
  match goal with
  | Hu : users w !! ?id = Some ?u |- _ =>
      exists id, u, (set_password (slice_last 8 random36) u)
  end.
  split_and!; try reflexivity; try assumption.
  - apply lookup_insert_eq.
Qed.

Lemma resetUserPassword_touches_password_only_witness :
  exists id u u',
    JStr "u1" = JStr id /\ users Sample.world !! id = Some u /\
    users (snd (resetUserPassword "0.k3j9x7w2q1z" (JStr "u1") Sample.as_bob Sample.world)) !! id
      = Some u' /\
    ur_password u' = slice_last 8 "0.k3j9x7w2q1z" /\
    ur_disabled u' = ur_disabled u /\
    ur_customClaims u' = ur_customClaims u /\
    ur_email u' = ur_email u /\
    ur_displayName u' = ur_displayName u.
Proof.
  apply (resetUserPassword_touches_password_only "0.k3j9x7w2q1z" (JStr "u1") Sample.as_bob
           Sample.world (RSuccess "Password reset successfully: 9x7w2q1z")).
  vm_compute. reflexivity.
Defined.

Lemma fetchUsers_pages_durable m fuel pageToken acc w r w' :
  fetchUsers_pages m fuel pageToken acc w = Some (r, w') -> durable w' = durable w.
Proof.
  revert pageToken acc w r w'.
  induction fuel as [|fuel IH]; intros pageToken acc w r w' H.
  - discriminate.
  - cbn [fetchUsers_pages] in H.
    destruct (listUsers m pageToken w) as [[res|e] w1] eqn:Hl;
      assert (Hd : durable w1 = durable w) by (unfold durable; eff_go; reflexivity).
    + destruct (lur_pageToken res).
      * apply IH in H. congruence.
      * injection H as _ <-. exact Hd.
    + injection H as _ <-. exact Hd.
Qed.

(** X4. Whatever its outcome, a lifecycle call leaves the Firestore
    documents, both buckets and the index alone, and every account other
    than the one it names as it was; [fetchUsers], which names none, changes
    no account at all. *)
Theorem lifecycle_frame (c : LifecycleCall) request w r w' :
  run_lifecycle c request w = Some (r, w') ->
  userDocs w' = userDocs w /\ hot w' = hot w /\ cold w' = cold w /\ gcpFiles w' = gcpFiles w /\
  (forall id, lifecycle_target c <> Some (JStr id) -> users w' !! id = users w !! id) /\
  (lifecycle_target c = None -> users w' = users w).
Proof.
  intros H. destruct c as [fuel|random36 uid|uid|uid|uid]; cbn [run_lifecycle lifecycle_target] in *.
  - unfold fetchUsers in H.
    destruct (checkAdminAuth request w) as [[[]|e] w1] eqn:Hadm.
    + apply checkAdminAuth_ok_inv in Hadm as [_ ->].
      destruct (fetchUsers_pages _ _ _ _ w) as [[[us|e] w2]|] eqn:Hp; [| |discriminate];
        apply fetchUsers_pages_durable in Hp; unfold durable in Hp; simplify_eq;
        split_and!; congruence.
    + unfold checkAdminAuth in Hadm. eff_go; split_and!; auto.
  - simplify_eq. lifecycle_open H.
    + destruct (negb (truthy uid)); eff_go; split_and!; try reflexivity; try discriminate;
        intros id Hid; try reflexivity; apply lookup_insert_ne; congruence.
    + unfold checkAdminAuth in *. eff_go; split_and!; auto; discriminate.
  - simplify_eq. lifecycle_open H.
    + destruct (negb (truthy uid)); eff_go; split_and!; try reflexivity; try discriminate;
        intros id Hid; try reflexivity; apply lookup_insert_ne; congruence.
    + unfold checkAdminAuth in *. eff_go; split_and!; auto; discriminate.
  - simplify_eq. lifecycle_open H.
    + destruct (negb (truthy uid)); eff_go; split_and!; try reflexivity; try discriminate;
        intros id Hid; try reflexivity; apply lookup_insert_ne; congruence.
    + unfold checkAdminAuth in *. eff_go; split_and!; auto; discriminate.
  - simplify_eq. lifecycle_open H.
    + destruct (negb (truthy uid)); eff_go; split_and!; try reflexivity; try discriminate;
        intros id Hid; try reflexivity; apply lookup_delete_ne; congruence.
    + unfold checkAdminAuth in *. eff_go; split_and!; auto; discriminate.
Qed.

Lemma lifecycle_frame_witness :
  userDocs (snd (deleteUserAccount (JStr "u1") Sample.as_bob Sample.world))
    = userDocs Sample.world /\
  hot (snd (deleteUserAccount (JStr "u1") Sample.as_bob Sample.world)) = hot Sample.world /\
  cold (snd (deleteUserAccount (JStr "u1") Sample.as_bob Sample.world)) = cold Sample.world /\
  gcpFiles (snd (deleteUserAccount (JStr "u1") Sample.as_bob Sample.world))
    = gcpFiles Sample.world /\
  (forall id, lifecycle_target (CallDeleteUserAccount (JStr "u1")) <> Some (JStr id) ->
     users (snd (deleteUserAccount (JStr "u1") Sample.as_bob Sample.world)) !! id
       = users Sample.world !! id) /\
  (lifecycle_target (CallDeleteUserAccount (JStr "u1")) = None ->
     users (snd (deleteUserAccount (JStr "u1") Sample.as_bob Sample.world))
       = users Sample.world).
Proof.
  apply (lifecycle_frame (CallDeleteUserAccount (JStr "u1")) Sample.as_bob Sample.world
           (fst (deleteUserAccount (JStr "u1") Sample.as_bob Sample.world))).
  cbn [run_lifecycle]. rewrite <- surjective_pairing. reflexivity.
Defined.

(** X5. A successful [deleteUserAccount] removes exactly the target's
    record from the user table; the files of the account in both buckets,
    its index entries and its Firestore document stay. *)
Theorem deleteUserAccount_no_cascade uid request w r w' :
  deleteUserAccount uid request w = (Ok r, w') ->
  exists id u,
    uid = JStr id /\ users w !! id = Some u /\
    users w' = delete id (users w) /\
    userDocs w' = userDocs w /\ hot w' = hot w /\ cold w' = cold w /\ gcpFiles w' = gcpFiles w.
Proof.
  intros H. lifecycle_open H; [|discriminate].
  destruct (negb (truthy uid)); [discriminate|].
  eff_go. eexists _, _. split_and!; try reflexivity; try eassumption.
Qed.

Lemma deleteUserAccount_no_cascade_witness :
  exists id u,
    JStr "u1" = JStr id /\ users Sample.world !! id = Some u /\
    users (snd (deleteUserAccount (JStr "u1") Sample.as_bob Sample.world))
      = delete id (users Sample.world) /\
    userDocs (snd (deleteUserAccount (JStr "u1") Sample.as_bob Sample.world))
      = userDocs Sample.world /\
    hot (snd (deleteUserAccount (JStr "u1") Sample.as_bob Sample.world)) = hot Sample.world /\
    cold (snd (deleteUserAccount (JStr "u1") Sample.as_bob Sample.world)) = cold Sample.world /\
    gcpFiles (snd (deleteUserAccount (JStr "u1") Sample.as_bob Sample.world))
      = gcpFiles Sample.world.
Proof.
  apply (deleteUserAccount_no_cascade (JStr "u1") Sample.as_bob Sample.world
           (RSuccess "User account deleted successfully.")).
  vm_compute. reflexivity.
Defined.

(** X6. For an admin caller, a lifecycle call with a missing (falsy) uid
    throws invalid-argument and leaves the world as it was; with a uid that
    names no account (or is not a string) it throws unknown and leaves the
    durable state as it was. *)
Theorem lifecycle_bad_target (c : LifecycleCall) (uid : JsVal) request w :
  has_admin_claim request = true ->
  lifecycle_target c = Some uid ->
  (truthy uid = false ->
   exists message,
     run_lifecycle c request w = Some (Throw (HttpsError invalid_argument message), w)) /\
  (truthy uid = true ->
   (forall id, uid = JStr id -> users w !! id = None) ->
   exists message w',
     run_lifecycle c request w = Some (Throw (HttpsError unknown message), w') /\
     durable w' = durable w).
Proof.
  intros Hadm Ht.
  destruct c as [fuel|random36 uid'|uid'|uid'|uid']; cbn [lifecycle_target] in Ht;
    simplify_eq; cbn [run_lifecycle]; split.
  all: unfold resetUserPassword, disableUserAccount, enableUserAccount, deleteUserAccount;
    unfold bind at 1; rewrite (checkAdminAuth_granted _ _ Hadm).
  all: try (intros ->; cbn [negb]; eexists; reflexivity).
  all: intros Htr Hnone; rewrite Htr; cbn [negb]; unfold durable.
  all: destruct uid as [| | | |id|]; try discriminate.
  all: try (specialize (Hnone id eq_refl)).
  all: eff_unfold;
    match goal with |- context [faults ?w0 ?n ?op] => destruct (faults w0 n op) end;
    eff_cbn; rewrite ?Hnone; eexists _, _; split; reflexivity.
Qed.

Lemma lifecycle_bad_target_witness :
  (exists message,
     run_lifecycle (CallDisableUserAccount (JStr "")) Sample.as_bob Sample.world
       = Some (Throw (HttpsError invalid_argument message), Sample.world)) /\
  (exists message w',
     run_lifecycle (CallDisableUserAccount (JStr "nobody")) Sample.as_bob Sample.world
       = Some (Throw (HttpsError unknown message), w') /\
     durable w' = durable Sample.world).
Proof.
  split.
  - apply (lifecycle_bad_target (CallDisableUserAccount (JStr "")) (JStr "")
             Sample.as_bob Sample.world); reflexivity.
  - apply (lifecycle_bad_target (CallDisableUserAccount (JStr "nobody")) (JStr "nobody")
             Sample.as_bob Sample.world); try reflexivity.
    intros id Hid. injection Hid as <-. vm_compute. reflexivity.
Defined.

(* ===================================================================== *)
(** ** Further properties: the cold tier *)
(* ===================================================================== *)

(** *** Prefixes *)

Lemma append_assoc (a b c : string) : (a +:+ b) +:+ c = a +:+ (b +:+ c).
Proof.
  induction a as [|x a IH]; [reflexivity|].
  change (String x a +:+ b) with (String x (a +:+ b)).
  change (String x (a +:+ b) +:+ c) with (String x ((a +:+ b) +:+ c)).
  change (String x a +:+ (b +:+ c)) with (String x (a +:+ (b +:+ c))).
  rewrite IH. reflexivity.
Qed.

Lemma append_inj_r (p a b : string) : p +:+ a = p +:+ b -> a = b.
Proof.
  induction p as [|x p IH]; intros H; [exact H|].
  change (String x p +:+ a) with (String x (p +:+ a)) in H.
  change (String x p +:+ b) with (String x (p +:+ b)) in H.
  injection H as H. auto.
Qed.

Lemma prefix_append (p s : string) : String.prefix p (p +:+ s) = true.
Proof.
  induction p as [|x p IH]; [destruct s; reflexivity|].
  change (String x p +:+ s) with (String x (p +:+ s)). cbn.
  destruct (ascii_dec x x); [exact IH|congruence].
Qed.

Lemma prefix_inv (p k : string) : String.prefix p k = true -> exists s, k = p +:+ s.
Proof.
  revert k. induction p as [|x p IH]; intros k H.
  - exists k. reflexivity.
  - destruct k as [|y k]; [discriminate|]. cbn in H.
    destruct (ascii_dec x y) as [->|]; [|discriminate].
    destruct (IH k H) as [s ->]. exists s. reflexivity.
Qed.

Lemma remove_first_prefix (p s : string) : remove_first p (p +:+ s) = s.
Proof.
  assert (Hun : forall t, remove_first p t =
            if String.prefix p t
            then substring (String.length p) (String.length t - String.length p) t
            else match t with
                 | EmptyString => EmptyString
                 | String c t' => String c (remove_first p t')
                 end) by (intros [|c t]; reflexivity).
  rewrite Hun, prefix_append, length_append.
  replace (String.length p + String.length s - String.length p) with (String.length s) by lia.
  apply substring_append_r.
Qed.

Lemma object_key_prefix (uid fileName : string) :
  startsWith (object_key uid fileName) (uid +:+ "/") = true.
Proof.
  unfold startsWith, object_key. rewrite <- append_assoc. apply prefix_append.
Qed.

Lemma object_key_inj (uid a b : string) : object_key uid a = object_key uid b -> a = b.
Proof. unfold object_key. intros H. apply append_inj_r in H. apply append_inj_r in H. exact H. Qed.

(** *** Listing *)

Lemma listGCPFiles_ok_inv a w files w' :
  listGCPFiles (mkContext (Some a)) w = (Ok (RFiles files), w') ->
  durable w' = durable w /\
  forall name url,
    In (name, url) files <->
    is_Some (cold w !! object_key (auth_uid a) name) /\
    url = cold_url (object_key (auth_uid a) name).
Proof.
  unfold listGCPFiles, durable. cbn [auth]. intros H. eff_go. split; [reflexivity|].
  intros name url. rewrite in_map_iff. split.
  - intros (k & Hk & Hin). apply filter_In in Hin as [Hin Hpre].
    apply prefix_inv in Hpre as [s ->]. rewrite remove_first_prefix in Hk.
    apply in_map_iff in Hin as ([k b] & Hkb & Hin). cbn in Hkb. subst k.
    apply list_elem_of_In, elem_of_map_to_list in Hin.
    rewrite append_assoc in Hin, Hk. injection Hk as <- <-.
    unfold object_key. split; [eauto|reflexivity].
  - intros [[b Hb] ->]. exists (object_key (auth_uid a) name). split.
    + unfold object_key at 1. rewrite <- append_assoc, remove_first_prefix. reflexivity.
    + apply filter_In. split; [|apply object_key_prefix].
      apply in_map_iff. exists (object_key (auth_uid a) name, b). split; [reflexivity|].
      apply list_elem_of_In, elem_of_map_to_list. exact Hb.
Qed.

Lemma NoDup_map_filter_inj {A B} (f : A -> B) (p : A -> bool) (l : list A) :
  (forall x y, p x = true -> p y = true -> f x = f y -> x = y) ->
  NoDup l -> NoDup (map f (List.filter p l)).
Proof.
  intros Hinj. induction 1 as [|x l Hx Hl IH]; cbn; [constructor|].
  destruct (p x) eqn:Hpx; [|exact IH]. cbn. constructor; [|exact IH].
  intros Hin. apply list_elem_of_In, in_map_iff in Hin as (y & Hfy & Hy).
  apply filter_In in Hy as [Hy Hpy].
  apply Hx. rewrite <- (Hinj y x Hpy Hpx Hfy). apply list_elem_of_In. exact Hy.
Qed.

Lemma listGCPFiles_names_once a w files w' :
  listGCPFiles (mkContext (Some a)) w = (Ok (RFiles files), w') ->
  NoDup (map fst files).
Proof.
  unfold listGCPFiles. cbn [auth]. intros H. eff_go.
  rewrite map_map. cbn [fst].
  apply NoDup_map_filter_inj; [|apply NoDup_fst_map_to_list].
  intros x y Hx Hy Heq.
  apply prefix_inv in Hx as [s ->]. apply prefix_inv in Hy as [t ->].
  rewrite !remove_first_prefix in Heq. congruence.
Qed.

(** X7. [listGCPFiles] changes nothing durable; it either throws the
    internal error or returns, for exactly the cold objects whose key is
    [{uid}/{name}] for the caller's uid, the pair of [name] (the key without
    the prefix) and the public url of the key, and no name twice: one entry
    for each such object. *)
Theorem listGCPFiles_lists_own_objects a w r w' :
  listGCPFiles (mkContext (Some a)) w = (r, w') ->
  durable w' = durable w /\
  (r = Throw (HttpsError internal "Failed to list GCP bucket files.") \/
   exists files,
     r = Ok (RFiles files) /\
     NoDup (map fst files) /\
     forall name url,
       In (name, url) files <->
       is_Some (cold w !! object_key (auth_uid a) name) /\
       url = cold_url (object_key (auth_uid a) name)).
Proof.
  intros H. destruct r as [resp|e].
  - assert (exists files, resp = RFiles files) as [files ->].
    { unfold listGCPFiles in H. cbn [auth] in H. eff_go. eauto. }
    pose proof (listGCPFiles_names_once _ _ _ _ H) as Hnd.
    apply listGCPFiles_ok_inv in H as [Hd Hfiles]. split; [exact Hd|]. right. eauto.
  - unfold listGCPFiles, durable in *. cbn [auth] in H. eff_go. split; [reflexivity|]. left. reflexivity.
Qed.

Lemma listGCPFiles_lists_own_objects_witness :
  durable (snd (listGCPFiles Sample.as_alice Sample.world)) = durable Sample.world /\
  (fst (listGCPFiles Sample.as_alice Sample.world)
     = Throw (HttpsError internal "Failed to list GCP bucket files.") \/
   exists files,
     fst (listGCPFiles Sample.as_alice Sample.world) = Ok (RFiles files) /\
     NoDup (map fst files) /\
     forall name url,
       In (name, url) files <->
       is_Some (cold Sample.world !! object_key (auth_uid Sample.alice_auth) name) /\
       url = cold_url (object_key (auth_uid Sample.alice_auth) name)).
Proof.
  apply (listGCPFiles_lists_own_objects Sample.alice_auth Sample.world).
  apply surjective_pairing.
Defined.

(** *** Isolation *)

(** X8. Whatever its outcome, a tier call by an authenticated caller
    changes no account and no user document, no object of either bucket whose
    key does not start with the caller's [{uid}/], and no index entry of
    another uid. *)
Theorem tier_call_stays_in_own_namespace (c : TierCall) a w r w' :
  run_tier c (mkContext (Some a)) w = (r, w') ->
  users w' = users w /\ userDocs w' = userDocs w /\
  (forall k, startsWith k (auth_uid a +:+ "/") = false ->
     cold w' !! k = cold w !! k /\ hot w' !! k = hot w !! k) /\
  (forall uid fileName, uid <> auth_uid a ->
     gcpFiles w' !! (uid, fileName) = gcpFiles w !! (uid, fileName)).
Proof.
  intros H.
  assert (Hkey : forall fileName k, startsWith k (auth_uid a +:+ "/") = false ->
                   object_key (auth_uid a) fileName <> k).
  { intros fileName k Hk <-. rewrite object_key_prefix in Hk. discriminate. }
  destruct c as [fileName fileUrl|fileName|]; cbn [run_tier] in H.
  - unfold uploadToGCPBucket in H. cbn [auth] in H. eff_go.
    all: split_and!; try reflexivity.
    all: try (intros k Hk; split; [|reflexivity]).
    all: try (intros uid fn Hne).
    all: try reflexivity.
    all: try (apply lookup_insert_ne; first [apply Hkey; assumption | congruence]).
  - unfold downloadFromGCPBucket in H. cbn [auth] in H.
    destruct (negb (truthy (JStr fileName))); eff_go.
    all: split_and!; try reflexivity.
    all: try (intros k Hk; split).
    all: try (intros uid fn Hne).
    all: try reflexivity.
    all: rewrite ?lookup_delete_ne, ?lookup_insert_ne by first [apply Hkey; assumption | congruence].
    all: reflexivity.
  - unfold listGCPFiles in H. cbn [auth] in H. eff_go.
    all: split_and!; try reflexivity; intros; try split; reflexivity.
Qed.

Lemma tier_call_stays_in_own_namespace_witness :
  users (snd (run_tier (CallDownloadFromGCPBucket "b.txt") Sample.as_alice Sample.world))
    = users Sample.world /\
  userDocs (snd (run_tier (CallDownloadFromGCPBucket "b.txt") Sample.as_alice Sample.world))
    = userDocs Sample.world /\
  (forall k, startsWith k (auth_uid Sample.alice_auth +:+ "/") = false ->
     cold (snd (run_tier (CallDownloadFromGCPBucket "b.txt") Sample.as_alice Sample.world)) !! k
       = cold Sample.world !! k /\
     hot (snd (run_tier (CallDownloadFromGCPBucket "b.txt") Sample.as_alice Sample.world)) !! k
       = hot Sample.world !! k) /\
  (forall uid fileName, uid <> auth_uid Sample.alice_auth ->
     gcpFiles (snd (run_tier (CallDownloadFromGCPBucket "b.txt") Sample.as_alice Sample.world))
       !! (uid, fileName) = gcpFiles Sample.world !! (uid, fileName)).
Proof.
  apply (tier_call_stays_in_own_namespace (CallDownloadFromGCPBucket "b.txt")
           Sample.alice_auth Sample.world
           (fst (run_tier (CallDownloadFromGCPBucket "b.txt") Sample.as_alice Sample.world))).
  apply surjective_pairing.
Defined.

(** *** Archive and retrieve, composed *)

Lemma uploadToGCPBucket_env fileName fileUrl context w r w' :
  uploadToGCPBucket fileName fileUrl context w = (r, w') ->
  web w' = web w /\ faults w' = faults w.
Proof.
  unfold uploadToGCPBucket. intros H.
  destruct (auth context); eff_go; split; reflexivity.
Qed.

(** X9. Archiving the same file twice in a row, both calls succeeding,
    leaves the cold bucket and the index as the first call left them, and
    the hot bucket as it was at the start. *)
Theorem uploadToGCPBucket_idempotent fileName fileUrl context w r1 w1 r2 w2 :
  uploadToGCPBucket fileName fileUrl context w = (Ok r1, w1) ->
  uploadToGCPBucket fileName fileUrl context w1 = (Ok r2, w2) ->
  cold w2 = cold w1 /\ gcpFiles w2 = gcpFiles w1 /\ hot w2 = hot w.
Proof.
  intros H1 H2. pose proof (uploadToGCPBucket_env _ _ _ _ _ _ H1) as [Hweb _].
  apply uploadToGCPBucket_ok_inv in H1 as (a & resp & Ha & Hresp & _ & Hc1 & Hi1 & Hh1 & _).
  apply uploadToGCPBucket_ok_inv in H2 as (a' & resp' & Ha' & Hresp' & _ & Hc2 & Hi2 & Hh2 & _).
  rewrite Hweb in Hresp'. simplify_eq.
  rewrite Hc2, Hc1, Hi2, Hi1, !insert_insert_eq, Hh2, Hh1. auto.
Qed.

Lemma uploadToGCPBucket_idempotent_witness :
  cold (snd (uploadToGCPBucket "a.txt" "https://hot.test/u1/a.txt" Sample.as_alice
               (snd (uploadToGCPBucket "a.txt" "https://hot.test/u1/a.txt"
                       Sample.as_alice Sample.hot_world))))
    = cold (snd (uploadToGCPBucket "a.txt" "https://hot.test/u1/a.txt"
                   Sample.as_alice Sample.hot_world)) /\
  gcpFiles (snd (uploadToGCPBucket "a.txt" "https://hot.test/u1/a.txt" Sample.as_alice
                   (snd (uploadToGCPBucket "a.txt" "https://hot.test/u1/a.txt"
                           Sample.as_alice Sample.hot_world))))
    = gcpFiles (snd (uploadToGCPBucket "a.txt" "https://hot.test/u1/a.txt"
                       Sample.as_alice Sample.hot_world)) /\
  hot (snd (uploadToGCPBucket "a.txt" "https://hot.test/u1/a.txt" Sample.as_alice
              (snd (uploadToGCPBucket "a.txt" "https://hot.test/u1/a.txt"
                      Sample.as_alice Sample.hot_world))))
    = hot Sample.hot_world.
Proof.
  apply (uploadToGCPBucket_idempotent "a.txt" "https://hot.test/u1/a.txt" Sample.as_alice
           Sample.hot_world (RMessage "File uploaded successfully.")
           (snd (uploadToGCPBucket "a.txt" "https://hot.test/u1/a.txt"
                   Sample.as_alice Sample.hot_world))
           (RMessage "File uploaded successfully.")).
  - vm_compute. reflexivity.
  - vm_compute. reflexivity.
Defined.

(** X10. A successful archive followed by a successful retrieve of the same
    file by the same caller puts the fetched bytes in the hot bucket at
    [{uid}/{fileName}], always with the content type
    [application/octet-stream], and leaves neither a cold object nor an index
    entry for the file. *)
Theorem archive_retrieve_round_trip fileName fileUrl a w r1 w1 r2 w2 :
  uploadToGCPBucket fileName fileUrl (mkContext (Some a)) w = (Ok r1, w1) ->
  downloadFromGCPBucket fileName (mkContext (Some a)) w1 = (Ok r2, w2) ->
  exists response,
    web w fileUrl = Some response /\
    hot w2 = <[object_key (auth_uid a) fileName :=
                 mkBlob (resp_body response) "application/octet-stream"]> (hot w) /\
    cold w2 = delete (object_key (auth_uid a) fileName) (cold w) /\
    gcpFiles w2 = delete (auth_uid a, fileName) (gcpFiles w).
Proof.
  intros H1 H2.
  apply uploadToGCPBucket_ok_inv in H1 as (a1 & resp & Ha & Hresp & _ & Hc1 & Hi1 & Hh1 & _).
  apply downloadFromGCPBucket_ok_inv in H2
    as (a2 & b & Ha2 & _ & Hb & _ & Hh2 & Hc2 & Hi2 & _).
  cbn in Ha, Ha2. simplify_eq.
  rewrite Hc1, lookup_insert_eq in Hb. simplify_eq.
  exists resp. split; [exact Hresp|].
  rewrite Hh2, Hh1, Hc2, Hc1, Hi2, Hi1, !delete_insert_eq. auto.
Qed.

Lemma archive_retrieve_round_trip_witness :
  exists response,
    web Sample.hot_world "https://hot.test/u1/a.txt" = Some response /\
    hot (snd (downloadFromGCPBucket "a.txt" Sample.as_alice
                (snd (uploadToGCPBucket "a.txt" "https://hot.test/u1/a.txt"
                        Sample.as_alice Sample.hot_world))))
      = <[object_key (auth_uid Sample.alice_auth) "a.txt" :=
            mkBlob (resp_body response) "application/octet-stream"]> (hot Sample.hot_world) /\
    cold (snd (downloadFromGCPBucket "a.txt" Sample.as_alice
                 (snd (uploadToGCPBucket "a.txt" "https://hot.test/u1/a.txt"
                         Sample.as_alice Sample.hot_world))))
      = delete (object_key (auth_uid Sample.alice_auth) "a.txt") (cold Sample.hot_world) /\
    gcpFiles (snd (downloadFromGCPBucket "a.txt" Sample.as_alice
                     (snd (uploadToGCPBucket "a.txt" "https://hot.test/u1/a.txt"
                             Sample.as_alice Sample.hot_world))))
      = delete (auth_uid Sample.alice_auth, "a.txt") (gcpFiles Sample.hot_world).
Proof.
  apply (archive_retrieve_round_trip "a.txt" "https://hot.test/u1/a.txt" Sample.alice_auth
           Sample.hot_world (RMessage "File uploaded successfully.")
           (snd (uploadToGCPBucket "a.txt" "https://hot.test/u1/a.txt"
                   Sample.as_alice Sample.hot_world))
           (RMessage "File a.txt successfully received and stored.")).
  - vm_compute. reflexivity.
  - vm_compute. reflexivity.
Defined.

(** X11. After a successful retrieve, retrieving the same file again fails
    with the internal error and changes nothing durable. *)
Theorem second_retrieve_fails fileName a a' w r1 w1 r2 w2 :
  downloadFromGCPBucket fileName (mkContext (Some a)) w = (Ok r1, w1) ->
  auth_uid a' = auth_uid a ->
  downloadFromGCPBucket fileName (mkContext (Some a')) w1 = (r2, w2) ->
  r2 = Throw (HttpsError internal "Failed to receive file from GCP bucket.") /\
  durable w2 = durable w1.
Proof.
  intros H1 Huid H2.
  apply downloadFromGCPBucket_ok_inv in H1 as (a1 & b & Ha & Hne & _ & _ & _ & Hc1 & _).
  cbn in Ha. simplify_eq.
  assert (Habs : cold w1 !! object_key (auth_uid a') fileName = None)
    by (rewrite Hc1, Huid; apply lookup_delete_eq).
  unfold downloadFromGCPBucket, durable in *. cbn [auth truthy] in H2.
  apply String.eqb_neq in Hne. rewrite Hne in H2. cbn [negb] in H2.
  eff_go; try congruence; split; reflexivity.
Qed.

Lemma second_retrieve_fails_witness :
  fst (downloadFromGCPBucket "b.txt" Sample.as_alice
         (snd (downloadFromGCPBucket "b.txt" Sample.as_alice Sample.world)))
    = Throw (HttpsError internal "Failed to receive file from GCP bucket.") /\
  durable (snd (downloadFromGCPBucket "b.txt" Sample.as_alice
                  (snd (downloadFromGCPBucket "b.txt" Sample.as_alice Sample.world))))
    = durable (snd (downloadFromGCPBucket "b.txt" Sample.as_alice Sample.world)).
Proof.
  apply (second_retrieve_fails "b.txt" Sample.alice_auth Sample.alice_auth Sample.world
           (RMessage "File b.txt successfully received and stored.")
           (snd (downloadFromGCPBucket "b.txt" Sample.as_alice Sample.world))).
  - vm_compute. reflexivity.
  - reflexivity.
  - apply surjective_pairing.
Defined.

(** X12. After a successful retrieve of a file, a listing by the same
    caller shows exactly the caller's other cold objects: the retrieved file
    is gone from it and nothing else is. *)
Theorem listing_after_retrieve fileName a w r w1 files w2 :
  downloadFromGCPBucket fileName (mkContext (Some a)) w = (Ok r, w1) ->
  listGCPFiles (mkContext (Some a)) w1 = (Ok (RFiles files), w2) ->
  forall name url,
    In (name, url) files <->
    name <> fileName /\
    is_Some (cold w !! object_key (auth_uid a) name) /\
    url = cold_url (object_key (auth_uid a) name).
Proof.
  intros H1 H2 name url.
  apply downloadFromGCPBucket_ok_inv in H1 as (a1 & b & Ha & _ & _ & _ & _ & Hc1 & _).
  cbn in Ha. simplify_eq.
  apply listGCPFiles_ok_inv in H2 as [_ Hfiles].
  rewrite Hfiles, Hc1, lookup_delete. case_decide as Hk.
  - apply object_key_inj in Hk. subst. split.
    + intros [[? ?] _]. discriminate.
    + intros [Hne _]. congruence.
  - split; [intros [Hs ->]|intros (_ & Hs & ->)]; split_and!; auto.
    intros ->. congruence.
Qed.

Lemma listing_after_retrieve_witness :
  In ("a.txt", cold_url "u1/a.txt") [("a.txt", cold_url "u1/a.txt")] <->
  "a.txt" <> "b.txt" /\
  is_Some (cold Sample.world !! object_key (auth_uid Sample.alice_auth) "a.txt") /\
  cold_url "u1/a.txt" = cold_url (object_key (auth_uid Sample.alice_auth) "a.txt").
Proof.
  apply (listing_after_retrieve "b.txt" Sample.alice_auth Sample.world
           (RMessage "File b.txt successfully received and stored.")
           (snd (downloadFromGCPBucket "b.txt" Sample.as_alice Sample.world))
           [("a.txt", cold_url "u1/a.txt")]
           (snd (listGCPFiles Sample.as_alice
                   (snd (downloadFromGCPBucket "b.txt" Sample.as_alice Sample.world))))).
  - vm_compute. reflexivity.
  - vm_compute. reflexivity.
Defined.

(** *** Staging and partial failures *)

Lemma split_slash_no_slash s : no_slash s = true -> split_slash s = [s].
Proof.
  induction s as [|c s IH]; [reflexivity|].
  cbn [no_slash split_slash]. intros [Hc Hs]%andb_true_iff.
  apply negb_true_iff in Hc. rewrite Hc, (IH Hs). reflexivity.
Qed.

Lemma no_slash_append p : no_slash (p +:+ "/") = false.
Proof.
  induction p as [|c p IH]; [reflexivity|].
  change (String c p +:+ "/") with (String c (p +:+ "/")).
  cbn [no_slash]. rewrite IH. apply andb_false_r.
Qed.

Lemma endsWith_no_slash s : no_slash s = true -> endsWith s "/" = false.
Proof.
  intros Hs. destruct (endsWith s "/") eqn:He; [|reflexivity].
  apply endsWith_spec in He as [p ->]. rewrite no_slash_append in Hs. discriminate.
Qed.

Lemma tmp_path_plain_name fileName :
  plain_name fileName = true -> tmp_path fileName = "/tmp/" +:+ fileName.
Proof.
  unfold plain_name. rewrite !andb_true_iff, !negb_true_iff.
  intros [[[He Hd] Hdd] Hs]. unfold tmp_path.
  rewrite He, (split_slash_no_slash _ Hs), (endsWith_no_slash _ Hs).
  unfold normalize_segments. cbn [fold_left].
  change (String.eqb "tmp" EmptyString || String.eqb "tmp" ".") with false.
  change (String.eqb "tmp" "..") with false. cbv iota.
  rewrite He, Hd, Hdd. cbn [orb rev app String.concat].
  change ("/tmp/" +:+ (fileName +:+ "") = "/tmp/" +:+ fileName).
  f_equal. clear. induction fileName as [|c s IH]; [reflexivity|].
  change (String c s +:+ "") with (String c (s +:+ "")). rewrite IH. reflexivity.
Qed.

(** X13. For a plain file name, the staging file of [uploadToGCPBucket]
    is [/tmp/{fileName}]. When neither the write of that file nor its unlink
    fails, then whatever the fetch, the cold upload and the index write do,
    no file is left at [/tmp/{fileName}] after the call (one that was there
    before is removed too) and the other staging files are untouched. *)
Theorem uploadToGCPBucket_releases_staging fileName fileUrl a w r w' :
  plain_name fileName = true ->
  (forall n, faults w n (StageWrite ("/tmp/" +:+ fileName)) = false) ->
  (forall n, faults w n (StageUnlink ("/tmp/" +:+ fileName)) = false) ->
  uploadToGCPBucket fileName fileUrl (mkContext (Some a)) w = (r, w') ->
  tmp w' !! ("/tmp/" +:+ fileName) = None /\
  (forall p, p <> "/tmp/" +:+ fileName -> tmp w' !! p = tmp w !! p).
Proof.
  intros Hplain _ Hf H. rewrite <- (tmp_path_plain_name _ Hplain) in *.
  unfold uploadToGCPBucket in H. cbn [auth] in H. eff_go.
  all: try match goal with
           | Hx : faults _ _ (StageUnlink _) = true |- _ => rewrite Hf in Hx; discriminate
           end.
  all: split; [|intros p Hp].
  all: rewrite ?lookup_delete_eq, ?lookup_delete_ne, ?lookup_insert_ne by congruence.
  all: try reflexivity; try assumption.
  all: match goal with
       | Hx : <[_:=_]> _ !! _ = None |- _ => rewrite lookup_insert_eq in Hx; discriminate
       end.
Qed.

Lemma uploadToGCPBucket_releases_staging_witness :
  tmp (snd (uploadToGCPBucket "a.txt" "https://hot.test/u1/a.txt"
              Sample.as_alice Sample.hot_world)) !! ("/tmp/" +:+ "a.txt") = None /\
  (forall p, p <> "/tmp/" +:+ "a.txt" ->
     tmp (snd (uploadToGCPBucket "a.txt" "https://hot.test/u1/a.txt"
                 Sample.as_alice Sample.hot_world)) !! p = tmp Sample.hot_world !! p).
Proof.
  apply (uploadToGCPBucket_releases_staging "a.txt" "https://hot.test/u1/a.txt"
           Sample.alice_auth Sample.hot_world
           (fst (uploadToGCPBucket "a.txt" "https://hot.test/u1/a.txt"
                   Sample.as_alice Sample.hot_world))).
  - reflexivity.
  - intros n. reflexivity.
  - intros n. reflexivity.
  - apply surjective_pairing.
Defined.

(** X14. When the index write fails after the cold upload succeeded,
    [uploadToGCPBucket] throws the internal error and nothing is rolled back:
    the object is in the cold bucket, the index is unchanged, the hot bucket
    is unchanged. *)
Theorem uploadToGCPBucket_index_write_failure fileName fileUrl a w response :
  web w fileUrl = Some response ->
  resp_ok response = true ->
  (forall n, faults w n (HttpFetch fileUrl) = false) ->
  (forall n, faults w n (StageWrite (tmp_path fileName)) = false) ->
  (forall n, faults w n (ColdUpload (object_key (auth_uid a) fileName)) = false) ->
  (forall n, faults w n (IndexSet (auth_uid a) fileName) = true) ->
  exists w',
    uploadToGCPBucket fileName fileUrl (mkContext (Some a)) w
      = (Throw (HttpsError internal "File upload failed."), w') /\
    cold w' = <[object_key (auth_uid a) fileName :=
                  mkBlob (resp_body response)
                    (or_default (resp_contentType response) "application/octet-stream")]>
                (cold w) /\
    gcpFiles w' = gcpFiles w /\ hot w' = hot w.
Proof.
  intros Hweb Hok F1 F2 F3 F4.
  unfold uploadToGCPBucket. cbn [auth]. eff_unfold.
  repeat first [rewrite F1 | rewrite F2 | rewrite F3 | rewrite F4 | rewrite Hweb | rewrite Hok
               | rewrite lookup_insert_eq | progress eff_cbn | progress cbn [negb]].
  match goal with |- context [faults ?w0 ?n ?op] => destruct (faults w0 n op) end;
    eff_cbn; [|rewrite lookup_insert_eq]; eexists; split_and!; reflexivity.
Qed.

(** X15. When the cold delete fails after the copy to the hot bucket
    succeeded, [downloadFromGCPBucket] throws the internal error and the
    object is in both buckets, with its index entry still there. *)
Theorem downloadFromGCPBucket_cold_delete_failure fileName a w b :
  fileName <> "" ->
  cold w !! object_key (auth_uid a) fileName = Some b ->
  (forall n, faults w n (ColdDownload (object_key (auth_uid a) fileName)) = false) ->
  (forall n, faults w n (HotSave (object_key (auth_uid a) fileName)) = false) ->
  (forall n, faults w n (ColdDelete (object_key (auth_uid a) fileName)) = true) ->
  exists w',
    downloadFromGCPBucket fileName (mkContext (Some a)) w
      = (Throw (HttpsError internal "Failed to receive file from GCP bucket."), w') /\
    hot w' = <[object_key (auth_uid a) fileName :=
                 mkBlob (blob_contents b) "application/octet-stream"]> (hot w) /\
    cold w' = cold w /\ gcpFiles w' = gcpFiles w.
Proof.
  intros Hne Hb F1 F2 F3.
  unfold downloadFromGCPBucket. cbn [auth truthy].
  apply String.eqb_neq in Hne. rewrite Hne. cbn [negb]. eff_unfold.
  repeat first [rewrite F1 | rewrite F2 | rewrite F3 | rewrite Hb | progress eff_cbn].
  eexists; split_and!; reflexivity.
Qed.

Lemma uploadToGCPBucket_index_write_failure_witness :
  exists w',
    uploadToGCPBucket "a.txt" "https://hot.test/u1/a.txt" Sample.as_alice Scenario.index_down
      = (Throw (HttpsError internal "File upload failed."), w') /\
    cold w' = <[object_key "u1" "a.txt" :=
                  mkBlob Sample.hello
                    (or_default (Some "text/plain") "application/octet-stream")]>
                (cold Scenario.index_down) /\
    gcpFiles w' = gcpFiles Scenario.index_down /\ hot w' = hot Scenario.index_down.
Proof.
  apply (uploadToGCPBucket_index_write_failure "a.txt" "https://hot.test/u1/a.txt"
           Sample.alice_auth Scenario.index_down
           (mkResponse 200 Sample.hello (Some "text/plain")));
    try reflexivity; intros n; reflexivity.
Defined.

Lemma downloadFromGCPBucket_cold_delete_failure_witness :
  exists w',
    downloadFromGCPBucket "b.txt" Sample.as_alice Scenario.cold_locked
      = (Throw (HttpsError internal "Failed to receive file from GCP bucket."), w') /\
    hot w' = <[object_key "u1" "b.txt" :=
                 mkBlob Sample.report "application/octet-stream"]> (hot Scenario.cold_locked) /\
    cold w' = cold Scenario.cold_locked /\ gcpFiles w' = gcpFiles Scenario.cold_locked.
Proof.
  apply (downloadFromGCPBucket_cold_delete_failure "b.txt" Sample.alice_auth
           Scenario.cold_locked (mkBlob Sample.report "application/pdf")).
  - discriminate.
  - vm_compute. reflexivity.
  - intros n. reflexivity.
  - intros n. reflexivity.
  - intros n. reflexivity.
Defined.

Lemma length_snoc {A} (l : list A) (x : A) : length (l ++ [x]) = S (length l).
Proof. rewrite length_app. cbn. lia. Qed.

(** X16. For an authenticated caller, [downloadFromGCPBucket] succeeds
    exactly when the file name is not empty, the object is in the cold bucket
    at [{uid}/{fileName}], and none of its four backend calls fails. *)
Theorem downloadFromGCPBucket_succeeds_iff fileName a w :
  is_ok (fst (downloadFromGCPBucket fileName (mkContext (Some a)) w)) = true <->
  fileName <> "" /\
  is_Some (cold w !! object_key (auth_uid a) fileName) /\
  faults w (length (trace w)) (ColdDownload (object_key (auth_uid a) fileName)) = false /\
  faults w (S (length (trace w))) (HotSave (object_key (auth_uid a) fileName)) = false /\
  faults w (S (S (length (trace w)))) (ColdDelete (object_key (auth_uid a) fileName)) = false /\
  faults w (S (S (S (length (trace w))))) (IndexDelete (auth_uid a) fileName) = false.
Proof.
  split.
  - intros H.
    destruct (downloadFromGCPBucket fileName (mkContext (Some a)) w) as [[r|e] w'] eqn:E;
      [clear H|discriminate].
    unfold downloadFromGCPBucket in E. cbn [auth truthy] in E.
    destruct (String.eqb_spec fileName "") as [->|Hne]; [discriminate|].
    cbn [negb] in E. eff_go. rewrite ?length_snoc in *. split_and!; eauto.
  - intros (Hne & [b Hb] & F1 & F2 & F3 & F4).
    unfold downloadFromGCPBucket. cbn [auth truthy].
    apply String.eqb_neq in Hne. rewrite Hne. cbn [negb]. eff_unfold.
    repeat first [rewrite length_snoc | rewrite F1 | rewrite F2 | rewrite F3 | rewrite F4
                 | rewrite Hb | progress eff_cbn].
    reflexivity.
Qed.

(* ===================================================================== *)
(** ** Further properties: claims *)
(* ===================================================================== *)

Lemma getUserByEmail_ok_inv email w uid u w' :
  getUserByEmail email w = (Ok (uid, u), w') ->
  exists e, email = JStr e /\ users w !! uid = Some u /\ ur_email u = Some e /\
    w' = with_trace (fun t => t ++ [AuthGetUserByEmail email]) w.
Proof.
  intros H. unfold getUserByEmail in H. eff_go.
  match goal with Hf : List.find _ _ = Some _ |- _ => apply find_some in Hf as [Hin Hp] end.
  apply bool_decide_eq_true in Hp. cbn in Hp.
  apply list_elem_of_In, elem_of_map_to_list in Hin. eauto.
Qed.

Lemma getUserByEmail_unique e w uid u :
  users w !! uid = Some u ->
  ur_email u = Some e ->
  (forall uid' u', users w !! uid' = Some u' -> ur_email u' = Some e -> uid' = uid) ->
  List.find (fun p => bool_decide (ur_email (snd p) = Some e)) (map_to_list (users w))
    = Some (uid, u).
Proof.
  intros Hu He Huniq.
  destruct (List.find _ _) as [[uid' u']|] eqn:Hf.
  - apply find_some in Hf as [Hin Hp]. apply bool_decide_eq_true in Hp. cbn in Hp.
    apply list_elem_of_In, elem_of_map_to_list in Hin.
    assert (uid' = uid) as -> by eauto. congruence.
  - assert (Hin : In (uid, u) (map_to_list (users w)))
      by (apply list_elem_of_In, elem_of_map_to_list; exact Hu).
    pose proof (find_none _ _ Hf (uid, u) Hin) as Hfalse. cbn in Hfalse.
    rewrite bool_decide_eq_true_2 in Hfalse by exact He. discriminate.
Qed.

Lemma setCustomAdminClaims_ok_inv email isAdmin request w r w' :
  setCustomAdminClaims email isAdmin request w = (Ok r, w') ->
  exists e b uid u,
    email = JStr e /\ isAdmin = JBool b /\
    users w !! uid = Some u /\ ur_email u = Some e /\
    users w' = <[uid := set_claims {[ "gcpAccess" := JBool true; "admin" := JBool b ]} u]>
                 (users w) /\
    userDocs w' =
      <[uid := {[ "email" := JStr e; "isAdmin" := JBool b; "gcpAccess" := JBool true;
                  "createdAt" := JServerTimestamp ]} ∪ default ∅ (userDocs w !! uid)]>
        (userDocs w) /\
    hot w' = hot w /\ cold w' = cold w /\ gcpFiles w' = gcpFiles w.
Proof.
  unfold setCustomAdminClaims. intros H.
  destruct (auth request); [|discriminate].
  destruct isAdmin as [| |b| | |]; try discriminate. cbn [is_boolean negb] in H.
  destruct (negb (truthy email)); [discriminate|].
  unfold try_catch, bind at 1 in H.
  destruct (getUserByEmail email w) as [[[uid u]|err] w1] eqn:Hget; [|discriminate].
  apply getUserByEmail_ok_inv in Hget as (e & -> & Hu & He & ->).
  cbn [fst] in H. eff_go.
  match goal with Hu' : users w !! uid = Some ?u0 |- _ =>
    assert (u0 = u) as -> by congruence end.
  exists e, b, uid, u. split_and!; try reflexivity; assumption.
Qed.

Lemma admin_doc_isAdmin (e : string) (b : bool) (old : gmap string JsVal) :
  ({[ "email" := JStr e; "isAdmin" := JBool b; "gcpAccess" := JBool true;
      "createdAt" := JServerTimestamp ]} ∪ old) !! "isAdmin" = Some (JBool b).
Proof.
  erewrite lookup_union_Some_l; [reflexivity|].
  rewrite lookup_insert_ne by discriminate. apply lookup_insert_eq.
Qed.

(** X17. A successful [setCustomAdminClaims] found the account by its
    email, replaced its claims by [{ gcpAccess: true, admin: isAdmin }], and
    merged [isAdmin] (with email, gcpAccess, createdAt) into its Firestore
    document, whose other fields are kept; other documents, both buckets and
    the index are untouched. *)
Theorem setCustomAdminClaims_effect email isAdmin request w r w' :
  setCustomAdminClaims email isAdmin request w = (Ok r, w') ->
  exists e b uid u doc,
    email = JStr e /\ isAdmin = JBool b /\
    users w !! uid = Some u /\ ur_email u = Some e /\
    users w' = <[uid := set_claims {[ "gcpAccess" := JBool true; "admin" := JBool b ]} u]>
                 (users w) /\
    userDocs w' !! uid = Some doc /\
    doc !! "isAdmin" = Some (JBool b) /\
    (forall field, field <> "email" -> field <> "isAdmin" -> field <> "gcpAccess" ->
                   field <> "createdAt" ->
                   doc !! field = userDocs w !! uid ≫= (fun old => old !! field)) /\
    (forall uid', uid' <> uid -> userDocs w' !! uid' = userDocs w !! uid') /\
    hot w' = hot w /\ cold w' = cold w /\ gcpFiles w' = gcpFiles w.
Proof.
  intros H. apply setCustomAdminClaims_ok_inv in H
    as (e & b & uid & u & -> & -> & Hu & He & Hus & Hdocs & Hh & Hc & Hi).
  exists e, b, uid, u. eexists. split_and!; try reflexivity; try assumption.
  - rewrite Hdocs. apply lookup_insert_eq.
  - apply admin_doc_isAdmin.
  - intros field H1 H2 H3 H4. rewrite lookup_union_r.
    + destruct (userDocs w !! uid); reflexivity.
    + rewrite !lookup_insert_ne by congruence. apply lookup_singleton_ne. congruence.
  - intros uid' Hne. rewrite Hdocs. apply lookup_insert_ne. congruence.
Qed.

Lemma setCustomAdminClaims_effect_witness :
  exists e b uid u doc,
    JStr "alice@example.com" = JStr e /\ JBool true = JBool b /\
    users Sample.world !! uid = Some u /\ ur_email u = Some e /\
    users (snd (setCustomAdminClaims (JStr "alice@example.com") (JBool true)
                  Sample.as_bob Sample.world))
      = <[uid := set_claims {[ "gcpAccess" := JBool true; "admin" := JBool b ]} u]>
          (users Sample.world) /\
    userDocs (snd (setCustomAdminClaims (JStr "alice@example.com") (JBool true)
                     Sample.as_bob Sample.world)) !! uid = Some doc /\
    doc !! "isAdmin" = Some (JBool b) /\
    (forall field, field <> "email" -> field <> "isAdmin" -> field <> "gcpAccess" ->
                   field <> "createdAt" ->
                   doc !! field = userDocs Sample.world !! uid ≫= (fun old => old !! field)) /\
    (forall uid', uid' <> uid ->
       userDocs (snd (setCustomAdminClaims (JStr "alice@example.com") (JBool true)
                        Sample.as_bob Sample.world)) !! uid'
         = userDocs Sample.world !! uid') /\
    hot (snd (setCustomAdminClaims (JStr "alice@example.com") (JBool true)
                Sample.as_bob Sample.world)) = hot Sample.world /\
    cold (snd (setCustomAdminClaims (JStr "alice@example.com") (JBool true)
                 Sample.as_bob Sample.world)) = cold Sample.world /\
    gcpFiles (snd (setCustomAdminClaims (JStr "alice@example.com") (JBool true)
                     Sample.as_bob Sample.world)) = gcpFiles Sample.world.
Proof.
  apply (setCustomAdminClaims_effect (JStr "alice@example.com") (JBool true) Sample.as_bob
           Sample.world (RSuccess "Custom claims updated for user: alice@example.com")).
  vm_compute. reflexivity.
Defined.

(** X18. For an authenticated caller, [setCustomAdminClaims] throws
    invalid-argument, changing nothing, when [isAdmin] is not a boolean or the
    email is missing, with the messages of the source, in which the field
    name stands between quotation marks (character 34); when no account has
    the email it throws unknown and changes nothing durable. *)
Theorem setCustomAdminClaims_rejects_bad_input email isAdmin a w :
  (is_boolean isAdmin = false ->
   setCustomAdminClaims email isAdmin (mkContext (Some a)) w
     = (Throw (HttpsError invalid_argument
         ("The " +:+ String "034"%char ("isAdmin" +:+ String "034"%char " field must be a boolean."))), w)) /\
  (is_boolean isAdmin = true -> truthy email = false ->
   setCustomAdminClaims email isAdmin (mkContext (Some a)) w
     = (Throw (HttpsError invalid_argument
         ("The " +:+ String "034"%char ("email" +:+ String "034"%char " parameter is required."))), w)) /\
  (is_boolean isAdmin = true -> truthy email = true ->
   (forall e uid u, email = JStr e -> users w !! uid = Some u -> ur_email u <> Some e) ->
   exists w',
     setCustomAdminClaims email isAdmin (mkContext (Some a)) w
       = (Throw (HttpsError unknown "Failed to set custom claims."), w') /\
     durable w' = durable w).
Proof.
  unfold setCustomAdminClaims. cbn [auth]. split_and!.
  - intros ->. reflexivity.
  - intros -> ->. reflexivity.
  - intros -> -> Hnone. cbn [negb]. unfold durable.
    unfold try_catch, bind at 1.
    destruct (getUserByEmail email w) as [[[uid u]|err] w1] eqn:Hget.
    + apply getUserByEmail_ok_inv in Hget as (e & -> & Hu & He & ->).
      exfalso. exact (Hnone e uid u eq_refl Hu He).
    + unfold getUserByEmail in Hget. eff_go; eexists; split; reflexivity.
Qed.

Lemma setCustomAdminClaims_rejects_bad_input_witness :
  setCustomAdminClaims (JStr "alice@example.com") (JStr "yes") Sample.as_bob Sample.world
    = (Throw (HttpsError invalid_argument
         ("The " +:+ String "034"%char ("isAdmin" +:+ String "034"%char " field must be a boolean."))), Sample.world)
  /\ setCustomAdminClaims (JStr "") (JBool true) Sample.as_bob Sample.world
    = (Throw (HttpsError invalid_argument
         ("The " +:+ String "034"%char ("email" +:+ String "034"%char " parameter is required."))), Sample.world)
  /\ exists w',
       setCustomAdminClaims (JStr "nobody@example.com") (JBool true) Sample.as_bob Sample.world
         = (Throw (HttpsError unknown "Failed to set custom claims."), w') /\
       durable w' = durable Sample.world.
Proof.
  split_and!.
  - apply (setCustomAdminClaims_rejects_bad_input (JStr "alice@example.com") (JStr "yes")
             Sample.bob_auth Sample.world). reflexivity.
  - apply (setCustomAdminClaims_rejects_bad_input (JStr "") (JBool true)
             Sample.bob_auth Sample.world); reflexivity.
  - apply (setCustomAdminClaims_rejects_bad_input (JStr "nobody@example.com") (JBool true)
             Sample.bob_auth Sample.world); try reflexivity.
    intros e uid u He Hu. injection He as <-.
    apply elem_of_map_to_list, list_elem_of_In in Hu. vm_compute in Hu.
    decompose [or] Hu; try contradiction; simplify_eq; vm_compute; discriminate.
Defined.

(** X19. [setCustomAdminClaims] is not atomic: when the Firestore write
    fails after the claims were set, the call throws unknown, the claims of
    the account are already the new ones and the document is unchanged. *)
Theorem setCustomAdminClaims_not_atomic e b a w uid u :
  e <> "" ->
  users w !! uid = Some u ->
  ur_email u = Some e ->
  (forall uid' u', users w !! uid' = Some u' -> ur_email u' = Some e -> uid' = uid) ->
  (forall n, faults w n (AuthGetUserByEmail (JStr e)) = false) ->
  (forall n, faults w n (AuthSetCustomUserClaims uid) = false) ->
  (forall n, faults w n (FirestoreSetUserDoc uid) = true) ->
  exists w',
    setCustomAdminClaims (JStr e) (JBool b) (mkContext (Some a)) w
      = (Throw (HttpsError unknown "Failed to set custom claims."), w') /\
    users w' = <[uid := set_claims {[ "gcpAccess" := JBool true; "admin" := JBool b ]} u]>
                 (users w) /\
    userDocs w' = userDocs w.
Proof.
  intros Hne Hu He Huniq F1 F2 F3.
  unfold setCustomAdminClaims. cbn [auth is_boolean truthy negb].
  apply String.eqb_neq in Hne. rewrite Hne. cbn [negb].
  unfold getUserByEmail. eff_unfold.
  rewrite F1. eff_cbn. rewrite (getUserByEmail_unique e w uid u Hu He Huniq).
  repeat first [rewrite F2 | rewrite F3 | rewrite Hu | progress eff_cbn].
  eexists. split_and!; reflexivity.
Qed.

Lemma setCustomAdminClaims_not_atomic_witness :
  exists w',
    setCustomAdminClaims (JStr "alice@example.com") (JBool true) Sample.as_bob
      Scenario.firestore_down
      = (Throw (HttpsError unknown "Failed to set custom claims."), w') /\
    users w' = <[ "u1" := set_claims {[ "gcpAccess" := JBool true; "admin" := JBool true ]}
                            Sample.alice]> (users Scenario.firestore_down) /\
    userDocs w' = userDocs Scenario.firestore_down.
Proof.
  apply (setCustomAdminClaims_not_atomic "alice@example.com" true Sample.bob_auth
           Scenario.firestore_down "u1" Sample.alice).
  - discriminate.
  - vm_compute. reflexivity.
  - reflexivity.
  - intros uid' u' Hu He. apply elem_of_map_to_list, list_elem_of_In in Hu. vm_compute in Hu.
    decompose [or] Hu; try contradiction; simplify_eq; try reflexivity;
      vm_compute in He; discriminate.
  - intros n. reflexivity.
  - intros n. reflexivity.
  - intros n. reflexivity.
Defined.

(** *** The admin flag of the pages and the admin claim of the gate *)

Lemma run_lifecycle_denied c request w :
  has_admin_claim request = false ->
  run_lifecycle c request w =
    Some (Throw (HttpsError permission_denied "You must be an admin to perform this action."), w).
Proof.
  intros H. destruct c; cbn [run_lifecycle];
    unfold fetchUsers, resetUserPassword, disableUserAccount, enableUserAccount,
      deleteUserAccount, bind;
    rewrite (checkAdminAuth_denied _ _ H); reflexivity.
Qed.

(** X20. After a successful [setCustomAdminClaims] with [isAdmin = b], the
    two admin notions agree on the target, which is the account that had the
    email and whose claims the call replaced: the refreshed token of that
    account passes the admin check of the functions exactly when [b], and
    [fetchAdminStatus] of the pages reads [b] from its Firestore document. *)
Theorem setCustomAdminClaims_syncs_flag_and_claim email isAdmin request w r w' :
  setCustomAdminClaims email isAdmin request w = (Ok r, w') ->
  exists e b uid u a,
    email = JStr e /\ isAdmin = JBool b /\
    users w !! uid = Some u /\ ur_email u = Some e /\
    users w' = <[uid := set_claims {[ "gcpAccess" := JBool true; "admin" := JBool b ]} u]>
                 (users w) /\
    getIdToken uid w' = Some a /\
    auth_uid a = uid /\
    has_admin_claim (mkContext (Some a)) = b /\
    fetchAdminStatus (Ok (userDocs w' !! uid)) = b.
Proof.
  intros H. apply setCustomAdminClaims_ok_inv in H
    as (e & b & uid & u & -> & -> & Hu & He & Hus & Hdocs & _).
  exists e, b, uid, u. eexists.
  split; [reflexivity|]. split; [reflexivity|]. split; [exact Hu|]. split; [exact He|].
  split; [exact Hus|].
  unfold getIdToken. rewrite Hus, lookup_insert_eq. cbn [fmap option_fmap option_map].
  split; [reflexivity|]. split; [reflexivity|]. split.
  - unfold has_admin_claim. cbn [auth auth_token ur_customClaims set_claims].
    rewrite lookup_insert_ne by discriminate. rewrite lookup_singleton_eq. reflexivity.
  - rewrite Hdocs, lookup_insert_eq. cbn [fetchAdminStatus].
    rewrite admin_doc_isAdmin. destruct b; reflexivity.
Qed.

Lemma setCustomAdminClaims_syncs_flag_and_claim_witness :
  exists e b uid u a,
    JStr "bob@corp.org" = JStr e /\ JBool false = JBool b /\
    users Sample.world !! uid = Some u /\ ur_email u = Some e /\
    users (snd (setCustomAdminClaims (JStr "bob@corp.org") (JBool false)
                  Sample.as_alice Sample.world))
      = <[uid := set_claims {[ "gcpAccess" := JBool true; "admin" := JBool b ]} u]>
          (users Sample.world) /\
    getIdToken uid (snd (setCustomAdminClaims (JStr "bob@corp.org") (JBool false)
                           Sample.as_alice Sample.world)) = Some a /\
    auth_uid a = uid /\
    has_admin_claim (mkContext (Some a)) = b /\
    fetchAdminStatus
      (Ok (userDocs (snd (setCustomAdminClaims (JStr "bob@corp.org") (JBool false)
                            Sample.as_alice Sample.world)) !! uid)) = b.
Proof.
  apply (setCustomAdminClaims_syncs_flag_and_claim (JStr "bob@corp.org") (JBool false)
           Sample.as_alice Sample.world
           (RSuccess "Custom claims updated for user: bob@corp.org")).
  vm_compute. reflexivity.
Defined.

(** X21. After a successful [grantGCPAccess], the caller's refreshed token
    has no admin claim, so every lifecycle call is denied, while the
    Firestore documents are untouched: a caller whose document says
    [isAdmin] is still let into the admin-only route. *)
Theorem grantGCPAccess_drops_claim_keeps_flag a w r w' :
  grantGCPAccess (mkContext (Some a)) w = (Ok r, w') ->
  exists a',
    getIdToken (auth_uid a) w' = Some a' /\
    has_admin_claim (mkContext (Some a')) = false /\
    (forall c, run_lifecycle c (mkContext (Some a')) w' =
       Some (Throw (HttpsError permission_denied
                      "You must be an admin to perform this action."), w')) /\
    userDocs w' = userDocs w /\
    (fetchAdminStatus (Ok (userDocs w !! auth_uid a)) = true ->
     ProtectedRoute false (Some a') (fetchAdminStatus (Ok (userDocs w' !! auth_uid a))) true
       = RenderChildren).
Proof.
  unfold grantGCPAccess. cbn [auth]. intros H.
  unfold try_catch, bind at 1 in H.
  destruct (setCustomUserClaims _ _ w) as [[[]|e] w1] eqn:Hset; [|discriminate].
  apply setCustomUserClaims_inv in Hset as (u & Hu & ->).
  cbn in H. simplify_eq.
  eexists. unfold getIdToken. cbn [users with_users with_trace userDocs].
  rewrite lookup_insert_eq. cbn [fmap option_fmap option_map].
  split; [reflexivity|].
  assert (Hno : has_admin_claim
                  (mkContext (Some (mkAuth (auth_uid a)
                     (ur_customClaims (set_claims {[ "gcpAccess" := JBool true ]} u))))) = false).
  { unfold has_admin_claim. cbn [auth auth_token ur_customClaims set_claims].
    rewrite lookup_singleton_ne by discriminate. reflexivity. }
  split; [exact Hno|]. split; [intros c; apply run_lifecycle_denied; exact Hno|].
  split; [reflexivity|]. intros ->. reflexivity.
Qed.

Lemma grantGCPAccess_drops_claim_keeps_flag_witness :
  exists a',
    getIdToken (auth_uid Sample.bob_auth) (snd (grantGCPAccess Sample.as_bob Sample.world))
      = Some a' /\
    has_admin_claim (mkContext (Some a')) = false /\
    (forall c, run_lifecycle c (mkContext (Some a'))
                 (snd (grantGCPAccess Sample.as_bob Sample.world)) =
       Some (Throw (HttpsError permission_denied
                      "You must be an admin to perform this action."),
             snd (grantGCPAccess Sample.as_bob Sample.world))) /\
    userDocs (snd (grantGCPAccess Sample.as_bob Sample.world)) = userDocs Sample.world /\
    (fetchAdminStatus (Ok (userDocs Sample.world !! auth_uid Sample.bob_auth)) = true ->
     ProtectedRoute false (Some a')
       (fetchAdminStatus
          (Ok (userDocs (snd (grantGCPAccess Sample.as_bob Sample.world))
                 !! auth_uid Sample.bob_auth))) true
       = RenderChildren).
Proof.
  apply (grantGCPAccess_drops_claim_keeps_flag Sample.bob_auth Sample.world
           (RMessage "GCP access granted successfully. Please refresh your token.")).
  vm_compute. reflexivity.
Defined.

(** X22. For an authenticated caller, [grantGCPAccess] succeeds exactly
    when the caller's account exists and the claims call does not fail: no
    claim held before is required. *)
Theorem grantGCPAccess_succeeds_iff a w :
  is_ok (fst (grantGCPAccess (mkContext (Some a)) w)) = true <->
  is_Some (users w !! auth_uid a) /\
  faults w (length (trace w)) (AuthSetCustomUserClaims (auth_uid a)) = false.
Proof.
  unfold grantGCPAccess. cbn [auth]. eff_unfold.
  destruct (faults w _ _); eff_cbn.
  - split; [discriminate|intros [_ ?]; discriminate].
  - destruct (users w !! auth_uid a) as [u|]; eff_cbn.
    + split; eauto.
    + split; [discriminate|intros [[? ?] _]; discriminate].
Qed.

(** X23. [handleSetAdmin] writes nothing unless the signed-in user has the
    bootstrap email; when it reports success it has set [isAdmin] in that
    user's Firestore document only, and the claims (hence the refreshed
    token) of the account are what they were. *)
Theorem handleSetAdmin_sets_flag_only currentUser w r w' :
  handleSetAdmin currentUser w = (r, w') ->
  users w' = users w /\ hot w' = hot w /\ cold w' = cold w /\ gcpFiles w' = gcpFiles w /\
  (r = Ok "Admin access granted." ->
   exists uid,
     currentUser = Some (uid, Some "joshabrams40@gmail.com") /\
     fetchAdminStatus (Ok (userDocs w' !! uid)) = true /\
     getIdToken uid w' = getIdToken uid w /\
     (forall uid', uid' <> uid -> userDocs w' !! uid' = userDocs w !! uid')) /\
  (r <> Ok "Admin access granted." -> userDocs w' = userDocs w).
Proof.
  unfold handleSetAdmin. intros H.
  destruct currentUser as [[uid [email|]]|].
  - destruct (String.eqb_spec email "joshabrams40@gmail.com") as [->|Hne].
    + eff_go; split_and!; try reflexivity; try (intros; congruence).
      intros _. exists uid. split_and!; try reflexivity.
      * rewrite lookup_insert_eq. cbn [fetchAdminStatus].
        rewrite (lookup_union_Some_l _ _ _ (JBool true)) by apply lookup_singleton_eq.
        reflexivity.
      * intros uid' Hn. apply lookup_insert_ne. congruence.
    + unfold ret in H. simplify_eq. split_and!; try reflexivity; discriminate.
  - unfold ret in H. simplify_eq. split_and!; try reflexivity; discriminate.
  - unfold ret in H. simplify_eq. split_and!; try reflexivity; discriminate.
Qed.

Lemma handleSetAdmin_sets_flag_only_witness :
  users (snd (handleSetAdmin (Some ("u7", Some "joshabrams40@gmail.com")) Sample.world))
    = users Sample.world /\
  hot (snd (handleSetAdmin (Some ("u7", Some "joshabrams40@gmail.com")) Sample.world))
    = hot Sample.world /\
  cold (snd (handleSetAdmin (Some ("u7", Some "joshabrams40@gmail.com")) Sample.world))
    = cold Sample.world /\
  gcpFiles (snd (handleSetAdmin (Some ("u7", Some "joshabrams40@gmail.com")) Sample.world))
    = gcpFiles Sample.world /\
  (fst (handleSetAdmin (Some ("u7", Some "joshabrams40@gmail.com")) Sample.world)
     = Ok "Admin access granted." ->
   exists uid,
     Some ("u7", Some "joshabrams40@gmail.com") = Some (uid, Some "joshabrams40@gmail.com") /\
     fetchAdminStatus
       (Ok (userDocs (snd (handleSetAdmin (Some ("u7", Some "joshabrams40@gmail.com"))
                             Sample.world)) !! uid)) = true /\
     getIdToken uid (snd (handleSetAdmin (Some ("u7", Some "joshabrams40@gmail.com"))
                            Sample.world)) = getIdToken uid Sample.world /\
     (forall uid', uid' <> uid ->
        userDocs (snd (handleSetAdmin (Some ("u7", Some "joshabrams40@gmail.com"))
                         Sample.world)) !! uid' = userDocs Sample.world !! uid')) /\
  (fst (handleSetAdmin (Some ("u7", Some "joshabrams40@gmail.com")) Sample.world)
     <> Ok "Admin access granted." ->
   userDocs (snd (handleSetAdmin (Some ("u7", Some "joshabrams40@gmail.com")) Sample.world))
     = userDocs Sample.world).
Proof.
  apply (handleSetAdmin_sets_flag_only (Some ("u7", Some "joshabrams40@gmail.com"))
           Sample.world).
  apply surjective_pairing.
Defined.

(* ===================================================================== *)
(** ** Further properties: the client loops *)
(* ===================================================================== *)

Lemma move_loop_app user files l1 l2 w :
  move_loop user files (l1 ++ l2) w =
    match move_loop user files l1 w with
    | (Ok _, w1) => move_loop user files l2 w1
    | (Throw e, w1) => (Throw e, w1)
    end.
Proof.
  revert w. induction l1 as [|x l1 IH]; intros w; [reflexivity|].
  cbn [app move_loop]. destruct (List.find _ files) as [file|]; [|apply IH].
  unfold bind.
  destruct (uploadToGCPBucket _ _ _ w) as [[r|e] w1]; [|reflexivity].
  destruct (deleteObject _ w1) as [[[]|e] w2]; [apply IH|reflexivity].
Qed.

(** X24. In [moveToGCPBucket] a failing archive call ends the batch: the
    error is shown, the world is the one that call left, the hot bucket is
    as before the call, and the files after it are never attempted. *)
Theorem moveToGCPBucket_stops_at_first_failure
    user files before fileName after w w1 file e w2 :
  move_loop user files before w = (Ok tt, w1) ->
  List.find (fun f => String.eqb (fst f) fileName) files = Some file ->
  uploadToGCPBucket (fst file) (snd file) (mkContext (Some user)) w1 = (Throw e, w2) ->
  moveToGCPBucket (Some user) files (before ++ fileName :: after) w =
    (MoveError "Failed to move files to the GCP bucket. Please try again.", w2) /\
  hot w2 = hot w1.
Proof.
  intros Hb Hfind Hup. split.
  - unfold moveToGCPBucket. rewrite move_loop_app, Hb. cbn [move_loop].
    rewrite Hfind. unfold bind at 1. rewrite Hup. reflexivity.
  - unfold uploadToGCPBucket in Hup. cbn [auth] in Hup. eff_go; reflexivity.
Qed.

Lemma moveToGCPBucket_stops_at_first_failure_witness :
  moveToGCPBucket (Some Sample.alice_auth) Scenario.alice_files ([] ++ "gone.txt" :: ["a.txt"])
    Sample.hot_world =
    (MoveError "Failed to move files to the GCP bucket. Please try again.",
     snd (uploadToGCPBucket "gone.txt" "https://hot.test/u1/gone.txt"
            Sample.as_alice Sample.hot_world)) /\
  hot (snd (uploadToGCPBucket "gone.txt" "https://hot.test/u1/gone.txt"
              Sample.as_alice Sample.hot_world)) = hot Sample.hot_world.
Proof.
  apply (moveToGCPBucket_stops_at_first_failure Sample.alice_auth Scenario.alice_files []
           "gone.txt" ["a.txt"] Sample.hot_world Sample.hot_world
           ("gone.txt", "https://hot.test/u1/gone.txt")
           (HttpsError internal "File upload failed.")).
  - reflexivity.
  - reflexivity.
  - vm_compute. reflexivity.
Defined.

(** X25. In [moveToGCPBucket], when the archive call succeeds and the
    client's delete of the hot object fails, the batch ends with the error
    and the file is in both buckets, indexed. *)
Theorem moveToGCPBucket_delete_failure_leaves_both
    user files before fileName after w w1 file r w2 e w3 :
  move_loop user files before w = (Ok tt, w1) ->
  List.find (fun f => String.eqb (fst f) fileName) files = Some file ->
  uploadToGCPBucket (fst file) (snd file) (mkContext (Some user)) w1 = (Ok r, w2) ->
  deleteObject (object_key (auth_uid user) (fst file)) w2 = (Throw e, w3) ->
  moveToGCPBucket (Some user) files (before ++ fileName :: after) w =
    (MoveError "Failed to move files to the GCP bucket. Please try again.", w3) /\
  hot w3 = hot w1 /\
  is_Some (cold w3 !! object_key (auth_uid user) fileName) /\
  is_Some (gcpFiles w3 !! (auth_uid user, fileName)).
Proof.
  intros Hb Hfind Hup Hdel.
  pose proof (find_some _ _ Hfind) as [_ Hname]. apply String.eqb_eq in Hname.
  split.
  - unfold moveToGCPBucket. rewrite move_loop_app, Hb. cbn [move_loop].
    rewrite Hfind. unfold bind at 1. rewrite Hup. unfold bind at 1. rewrite Hdel. reflexivity.
  - apply uploadToGCPBucket_ok_inv in Hup
      as (a & resp & Ha & _ & _ & Hcold & Hidx & Hhot & _). cbn in Ha. simplify_eq.
    assert (hot w3 = hot w2 /\ cold w3 = cold w2 /\ gcpFiles w3 = gcpFiles w2)
      as (Hh3 & Hc3 & Hi3) by (eff_go; auto).
    rewrite Hh3, Hc3, Hi3, Hhot, Hcold, Hidx, !lookup_insert_eq. eauto.
Qed.

Lemma moveToGCPBucket_delete_failure_leaves_both_witness :
  moveToGCPBucket (Some Sample.alice_auth) Scenario.alice_files ([] ++ "a.txt" :: [])
    Scenario.hot_locked =
    (MoveError "Failed to move files to the GCP bucket. Please try again.",
     snd (deleteObject "u1/a.txt"
            (snd (uploadToGCPBucket "a.txt" "https://hot.test/u1/a.txt"
                    Sample.as_alice Scenario.hot_locked)))) /\
  hot (snd (deleteObject "u1/a.txt"
              (snd (uploadToGCPBucket "a.txt" "https://hot.test/u1/a.txt"
                      Sample.as_alice Scenario.hot_locked)))) = hot Scenario.hot_locked /\
  is_Some (cold (snd (deleteObject "u1/a.txt"
                        (snd (uploadToGCPBucket "a.txt" "https://hot.test/u1/a.txt"
                                Sample.as_alice Scenario.hot_locked))))
             !! object_key (auth_uid Sample.alice_auth) "a.txt") /\
  is_Some (gcpFiles (snd (deleteObject "u1/a.txt"
                            (snd (uploadToGCPBucket "a.txt" "https://hot.test/u1/a.txt"
                                    Sample.as_alice Scenario.hot_locked))))
             !! (auth_uid Sample.alice_auth, "a.txt")).
Proof.
  apply (moveToGCPBucket_delete_failure_leaves_both Sample.alice_auth Scenario.alice_files []
           "a.txt" [] Scenario.hot_locked Scenario.hot_locked
           ("a.txt", "https://hot.test/u1/a.txt")
           (RMessage "File uploaded successfully.")
           (snd (uploadToGCPBucket "a.txt" "https://hot.test/u1/a.txt"
                   Sample.as_alice Scenario.hot_locked))
           (JsError "backend failure")).
  - reflexivity.
  - reflexivity.
  - vm_compute. reflexivity.
  - vm_compute. reflexivity.
Defined.

Lemma downloadFromGCPBucket_absent_inv fileName user w r w' :
  cold w !! object_key (auth_uid user) fileName = None ->
  downloadFromGCPBucket fileName (mkContext (Some user)) w = (r, w') ->
  is_ok r = false /\ durable w' = durable w.
Proof.
  intros Habs H. unfold downloadFromGCPBucket, durable in *. cbn [auth] in H.
  destruct (negb (truthy (JStr fileName))); eff_go; try congruence; split; reflexivity.
Qed.

(** X26. When none of the selected files is in the cold bucket,
    [handleReceiveFiles] reports every name as failed, shows no alert and no
    error, and changes nothing durable. *)
Theorem handleReceiveFiles_nothing_to_receive user selectedFiles w v w' :
  (forall fileName, In fileName selectedFiles ->
     cold w !! object_key (auth_uid user) fileName = None) ->
  handleReceiveFiles (Some user) selectedFiles w = (v, w') ->
  successfulDownloads v = [] /\ failedDownloads v = selectedFiles /\
  alert v = None /\ error v = None /\ durable w' = durable w.
Proof.
  intros Habs H. unfold handleReceiveFiles in H.
  destruct (receive_loop user selectedFiles [] [] [] w) as [[[s f] o] w1] eqn:Hl.
  assert (Hloop : s = [] /\ f = selectedFiles /\ durable w1 = durable w).
  { clear H. revert w s f o w1 Habs Hl.
    induction selectedFiles as [|x l IH]; intros w s f o w1 Habs Hl.
    - cbn in Hl. simplify_eq. auto.
    - cbn [receive_loop] in Hl.
      destruct (downloadFromGCPBucket x _ w) as [r w2] eqn:Hd.
      apply downloadFromGCPBucket_absent_inv in Hd as [Hr Hdur]; [|apply Habs; left; reflexivity].
      destruct r as [r|e]; [discriminate|].
      rewrite receive_loop_acc in Hl.
      destruct (receive_loop user l [] [] [] w2) as [[[s2 f2] o2] w3] eqn:Hl2.
      apply IH in Hl2 as (-> & -> & Hdur2).
      + assert (Hd3 : durable w3 = durable w) by (rewrite Hdur2; exact Hdur).
        injection Hl as <- <- _ <-. auto.
      + intros fileName Hin.
        assert (Hc : cold w2 = cold w) by (unfold durable in Hdur; congruence).
        rewrite Hc. apply Habs. right. exact Hin. }
  destruct Hloop as (-> & -> & Hdur). injection H as <- <-. cbn. auto.
Qed.

Lemma handleReceiveFiles_nothing_to_receive_witness :
  successfulDownloads
    (fst (handleReceiveFiles (Some Sample.alice_auth) ["x.txt"; "y.txt"] Sample.world)) = [] /\
  failedDownloads
    (fst (handleReceiveFiles (Some Sample.alice_auth) ["x.txt"; "y.txt"] Sample.world))
    = ["x.txt"; "y.txt"] /\
  alert (fst (handleReceiveFiles (Some Sample.alice_auth) ["x.txt"; "y.txt"] Sample.world))
    = None /\
  error (fst (handleReceiveFiles (Some Sample.alice_auth) ["x.txt"; "y.txt"] Sample.world))
    = None /\
  durable (snd (handleReceiveFiles (Some Sample.alice_auth) ["x.txt"; "y.txt"] Sample.world))
    = durable Sample.world.
Proof.
  apply (handleReceiveFiles_nothing_to_receive Sample.alice_auth ["x.txt"; "y.txt"]
           Sample.world).
  - intros fileName [<-|[<-|[]]]; vm_compute; reflexivity.
  - apply surjective_pairing.
Defined.

(** *** Selection *)

Lemma NoDup_List_filter {A} (p : A -> bool) (l : list A) :
  NoDup l -> NoDup (List.filter p l).
Proof.
  induction 1 as [|x l Hx Hl IH]; cbn; [constructor|].
  destruct (p x); [|exact IH]. constructor; [|exact IH].
  rewrite list_elem_of_In, filter_In, <- list_elem_of_In. tauto.
Qed.

Lemma existsb_eqb_In (name : string) (l : list string) :
  existsb (String.eqb name) l = true <-> In name l.
Proof.
  rewrite existsb_exists. split.
  - intros (x & Hin & Heq). apply String.eqb_eq in Heq. congruence.
  - intros Hin. exists name. split; [exact Hin|apply String.eqb_refl].
Qed.

Lemma filter_other_names (name : string) (l : list string) :
  ~ In name l -> List.filter (fun n => negb (String.eqb n name)) l = l.
Proof.
  induction l as [|y l IH]; intros Hnot; [reflexivity|]. cbn.
  destruct (String.eqb_spec y name) as [->|_]; cbn.
  - exfalso. apply Hnot. left. reflexivity.
  - f_equal. apply IH. intros Hin. apply Hnot. right. exact Hin.
Qed.

Lemma toggle_back (name : string) (prev : list string) :
  NoDup prev -> In name prev ->
  Permutation (List.filter (fun n => negb (String.eqb n name)) prev ++ [name]) prev.
Proof.
  induction prev as [|x l IH]; intros Hnd Hin; [contradiction|].
  apply NoDup_cons in Hnd as [Hx Hl]. cbn [List.filter].
  destruct (String.eqb_spec x name) as [->|Hxn]; cbn [negb].
  - rewrite filter_other_names by (rewrite <- list_elem_of_In; exact Hx).
    symmetry. apply Permutation_cons_append.
  - cbn [app]. constructor. apply IH; [exact Hl|].
    destruct Hin as [?|?]; [congruence|assumption].
Qed.

(** X27. The two selection handlers keep the selection free of duplicates
    (given that the listed names are distinct); the checkbox handler flips
    the membership of its file and of no other, and applied twice it gives
    back the same set of names. *)
Theorem selection_stays_duplicate_free files name prev :
  NoDup (map fst files) ->
  NoDup prev ->
  NoDup (toggle_selected name prev) /\
  NoDup (handleSelectAll files prev) /\
  (In name (toggle_selected name prev) <-> ~ In name prev) /\
  (forall other, other <> name ->
     (In other (toggle_selected name prev) <-> In other prev)) /\
  Permutation (toggle_selected name (toggle_selected name prev)) prev.
Proof.
  intros Hfiles Hprev. unfold handleSelectAll.
  destruct (existsb (String.eqb name) prev) eqn:Hex.
  - assert (Ht : toggle_selected name prev
                 = List.filter (fun n => negb (String.eqb n name)) prev)
      by (unfold toggle_selected; rewrite Hex; reflexivity).
    rewrite !Ht. apply existsb_eqb_In in Hex. split_and!.
    + apply NoDup_List_filter. exact Hprev.
    + destruct (_ =? _)%nat; [constructor|exact Hfiles].
    + rewrite filter_In, negb_true_iff, String.eqb_neq. tauto.
    + intros other Hne. rewrite filter_In, negb_true_iff, String.eqb_neq. tauto.
    + unfold toggle_selected.
      assert (Hout : existsb (String.eqb name)
                       (List.filter (fun n => negb (String.eqb n name)) prev) = false).
      { apply not_true_is_false. rewrite existsb_eqb_In, filter_In, negb_true_iff,
          String.eqb_neq. tauto. }
      rewrite Hout. apply toggle_back; assumption.
  - assert (Ht : toggle_selected name prev = prev ++ [name])
      by (unfold toggle_selected; rewrite Hex; reflexivity).
    rewrite !Ht.
    assert (Hnot : ~ In name prev).
    { intros Hin. apply existsb_eqb_In in Hin. congruence. }
    split_and!.
    + apply NoDup_app. split_and!; [exact Hprev| |apply NoDup_singleton].
      intros x Hx Hx'. apply list_elem_of_In in Hx. apply list_elem_of_singleton in Hx'.
      congruence.
    + destruct (_ =? _)%nat; [constructor|exact Hfiles].
    + rewrite in_app_iff. cbn. tauto.
    + intros other Hne. rewrite in_app_iff. cbn. split; [intros [?|[?|[]]]|]; auto. congruence.
    + unfold toggle_selected.
      assert (Hin : existsb (String.eqb name) (prev ++ [name]) = true).
      { apply existsb_eqb_In, in_app_iff. right. left. reflexivity. }
      rewrite Hin. clear Hin.
      replace (List.filter (fun n => negb (String.eqb n name)) (prev ++ [name])) with prev;
        [reflexivity|].
      rewrite List.filter_app. cbn. rewrite String.eqb_refl. cbn. rewrite app_nil_r.
      symmetry. apply filter_other_names. exact Hnot.
Qed.

Lemma selection_stays_duplicate_free_witness :
  NoDup (toggle_selected "a.txt" ["b.txt"; "a.txt"]) /\
  NoDup (handleSelectAll Scenario.alice_files ["b.txt"; "a.txt"]) /\
  (In "a.txt" (toggle_selected "a.txt" ["b.txt"; "a.txt"]) <-> ~ In "a.txt" ["b.txt"; "a.txt"]) /\
  (forall other, other <> "a.txt" ->
     (In other (toggle_selected "a.txt" ["b.txt"; "a.txt"]) <-> In other ["b.txt"; "a.txt"])) /\
  Permutation (toggle_selected "a.txt" (toggle_selected "a.txt" ["b.txt"; "a.txt"]))
    ["b.txt"; "a.txt"].
Proof.
  apply (selection_stays_duplicate_free Scenario.alice_files "a.txt" ["b.txt"; "a.txt"]).
  - apply NoDup_cons. split; [|apply NoDup_singleton].
    intros H. apply list_elem_of_singleton in H. discriminate.
  - apply NoDup_cons. split; [|apply NoDup_singleton].
    intros H. apply list_elem_of_singleton in H. discriminate.
Defined.

(** *** The admin page *)

Lemma lifecycle_call_throw_users (action : AdminAction) random36 uid request w e w' :
  match action with
  | resetPassword => resetUserPassword random36 uid
  | disableAccount => disableUserAccount uid
  | enableAccount => enableUserAccount uid
  | deleteAccount => deleteUserAccount uid
  end request w = (Throw e, w') ->
  users w' = users w.
Proof.
  intros H. destruct action; lifecycle_open H;
    try (unfold checkAdminAuth in *; eff_go; reflexivity);
    destruct (negb (truthy uid)); eff_go; reflexivity.
Qed.

Lemma views_insert (m : gmap string UserRecord) uid u u' :
  m !! uid = Some u ->
  Permutation (map user_view (map_to_list (<[uid := u']> m)))
    (user_view (uid, u') :: map user_view (map_to_list (delete uid m))).
Proof.
  intros Hu. rewrite <- insert_delete_eq.
  refine (Permutation_map user_view (l' := (uid, u') :: _) _).
  apply map_to_list_insert, lookup_delete_eq.
Qed.

Lemma views_delete (m : gmap string UserRecord) uid u :
  m !! uid = Some u ->
  Permutation (map user_view (map_to_list m))
    (user_view (uid, u) :: map user_view (map_to_list (delete uid m))).
Proof.
  intros Hu. symmetry.
  refine (Permutation_map user_view (l := (uid, u) :: _) _).
  apply map_to_list_delete. exact Hu.
Qed.

Lemma views_rest_uid (m : gmap string UserRecord) uid v :
  In v (map user_view (map_to_list (delete uid m))) -> String.eqb (view_uid v) uid = false.
Proof.
  intros Hin. apply in_map_iff in Hin as ([k u] & <- & Hin).
  apply list_elem_of_In, elem_of_map_to_list in Hin.
  apply String.eqb_neq. cbn. intros ->. rewrite lookup_delete_eq in Hin. discriminate.
Qed.

Lemma Permutation_List_filter {A} (p : A -> bool) (l l' : list A) :
  Permutation l l' -> Permutation (List.filter p l) (List.filter p l').
Proof.
  induction 1 as [|x l l' _ IH|x y l|l l' l'' _ IH1 _ IH2]; cbn.
  - constructor.
  - destruct (p x); [constructor|]; exact IH.
  - destruct (p x), (p y); try reflexivity. constructor.
  - etransitivity; eassumption.
Qed.

(** X28. If the users shown by the admin page are those of the user table
    (in any order), they still are after [handleAdminAction], whatever the
    action and whether it succeeds or fails. *)
Theorem handleAdminAction_keeps_list_in_sync
    random36 currentUser action uid userList w message userList' w' :
  Permutation userList (map user_view (map_to_list (users w))) ->
  handleAdminAction random36 currentUser action uid userList w = ((message, userList'), w') ->
  Permutation userList' (map user_view (map_to_list (users w'))).
Proof.
  intros Hsync H. unfold handleAdminAction in H.
  destruct (match action with
            | resetPassword => resetUserPassword random36 (JStr uid)
            | disableAccount => disableUserAccount (JStr uid)
            | enableAccount => enableUserAccount (JStr uid)
            | deleteAccount => deleteUserAccount (JStr uid)
            end (mkContext currentUser) w) as [[data|e] w1] eqn:Hcall.
  - injection H as _ <- <-.
    assert (Hset : forall b u,
              users w !! uid = Some u ->
              users w1 = <[uid := set_disabled b u]> (users w) ->
              Permutation
                (map (fun user => if String.eqb (view_uid user) uid
                                  then with_disabled b user else user) userList)
                (map user_view (map_to_list (users w1)))).
    { intros b u Hu ->. rewrite (views_insert _ _ _ _ Hu).
      rewrite (Permutation_map _ Hsync), (Permutation_map _ (views_delete _ _ _ Hu)).
      cbn [map]. unfold view_uid at 1. cbn [user_view fst snd]. rewrite String.eqb_refl.
      apply Permutation_cons; [reflexivity|].
      erewrite map_ext_in; [rewrite map_id; reflexivity|].
      intros v Hv. cbn. rewrite (views_rest_uid _ _ _ Hv). reflexivity. }
    destruct action.
    + apply resetUserPassword_secret in Hcall as (_ & _ & id & u & Hid & Hu & ->).
      injection Hid as <-. rewrite (views_insert _ _ _ _ Hu), Hsync.
      apply (views_delete _ _ _ Hu).
    + apply (set_account_disabled_inv true) in Hcall as (_ & id & u & Hid & Hu & Hw1).
      injection Hid as <-. eauto.
    + lifecycle_open Hcall; [|discriminate].
      cbn [truthy] in Hcall. destruct (negb _); [discriminate|]. eff_go.
      match goal with Hu : users w !! uid = Some ?u |- _ =>
        rewrite (Permutation_List_filter _ _ _ Hsync),
                (Permutation_List_filter _ _ _ (views_delete _ _ _ Hu)) end.
      cbn [List.filter]. unfold view_uid at 1. cbn [user_view fst snd].
      rewrite String.eqb_refl. cbn [negb].
      erewrite filter_ext_in; [rewrite filter_true; reflexivity|].
      intros v Hv. cbn. rewrite (views_rest_uid _ _ _ Hv). reflexivity.
    + apply (set_account_disabled_inv false) in Hcall as (_ & id & u & Hid & Hu & Hw1).
      injection Hid as <-. eauto.
  - injection H as _ <- <-.
    apply lifecycle_call_throw_users in Hcall. rewrite Hcall. exact Hsync.
Qed.

Lemma handleAdminAction_keeps_list_in_sync_witness :
  Permutation
    (snd (fst (handleAdminAction "0.k3j9x7w2q1z" (Some Sample.bob_auth) deleteAccount "u1"
                 Scenario.shown_users Sample.world)))
    (map user_view
       (map_to_list
          (users (snd (handleAdminAction "0.k3j9x7w2q1z" (Some Sample.bob_auth) deleteAccount
                         "u1" Scenario.shown_users Sample.world))))).
Proof.
  apply (handleAdminAction_keeps_list_in_sync "0.k3j9x7w2q1z" (Some Sample.bob_auth)
           deleteAccount "u1" Scenario.shown_users Sample.world
           (fst (fst (handleAdminAction "0.k3j9x7w2q1z" (Some Sample.bob_auth) deleteAccount
                        "u1" Scenario.shown_users Sample.world)))).
  - reflexivity.
  - rewrite <- !surjective_pairing. reflexivity.
Defined.

Example handleAdminAction_delete_scenario :
  fst (handleAdminAction "0.k3j9x7w2q1z" (Some Sample.bob_auth) deleteAccount "u1"
         Scenario.shown_users Sample.world)
  = ("User account deleted successfully.",
     [("u3", None, None, false); ("u2", Some "bob@corp.org", Some "Bob", false)]).
Proof. vm_compute. reflexivity. Qed.

(** *** Deleting hot files *)

Lemma delete_loop_ok user selectedFiles w w' :
  delete_loop user selectedFiles w = (Ok tt, w') ->
  NoDup selectedFiles /\
  (forall fileName, In fileName selectedFiles ->
     is_Some (hot w !! object_key (auth_uid user) fileName) /\
     hot w' !! object_key (auth_uid user) fileName = None) /\
  (forall k, (forall fileName, In fileName selectedFiles ->
                k <> object_key (auth_uid user) fileName) ->
     hot w' !! k = hot w !! k) /\
  cold w' = cold w /\ gcpFiles w' = gcpFiles w /\ users w' = users w.
Proof.
  revert w. induction selectedFiles as [|x l IH]; intros w H.
  - cbn in H. unfold ret in H. simplify_eq.
    split_and!; try reflexivity; [constructor|intros ? []].
  - cbn [delete_loop] in H. unfold bind at 1 in H.
    destruct (deleteObject _ w) as [[[]|e] w1] eqn:Hdel; [|discriminate].
    assert (Hx : is_Some (hot w !! object_key (auth_uid user) x) /\
                 hot w1 = delete (object_key (auth_uid user) x) (hot w) /\
                 cold w1 = cold w /\ gcpFiles w1 = gcpFiles w /\ users w1 = users w)
      by (eff_go; split_and!; eauto).
    clear Hdel. destruct Hx as (Hsome & Hh1 & Hc1 & Hi1 & Hu1).
    apply IH in H as (Hnd & Hsel & Hframe & Hc & Hi & Hu).
    assert (Hnot : ~ In x l).
    { intros Hin. destruct (Hsel x Hin) as [[b Hb] _].
      rewrite Hh1, lookup_delete_eq in Hb. discriminate. }
    split_and!; try congruence.
    + apply NoDup_cons. split; [rewrite list_elem_of_In; exact Hnot|exact Hnd].
    + intros f [<-|Hin].
      * split; [exact Hsome|]. rewrite Hframe.
        -- rewrite Hh1. apply lookup_delete_eq.
        -- intros f Hin Heq. apply object_key_inj in Heq. congruence.
      * destruct (Hsel f Hin) as [[b Hb] Hnone]. split; [|exact Hnone].
        rewrite Hh1 in Hb. apply lookup_delete_Some in Hb as [_ Hb]. eauto.
    + intros k Hk. rewrite Hframe, Hh1.
      * apply lookup_delete_ne. intros Heq. apply (Hk x); [left; reflexivity|congruence].
      * intros f Hin. apply Hk. right. exact Hin.
Qed.

(** X29. When [handleDeleteFiles] reports success, the selection had no
    duplicates, every selected file was in the hot bucket and is gone from
    it, no other hot object changed, and the cold bucket, the index and the
    accounts are untouched. *)
Theorem handleDeleteFiles_removes_selection user selectedFiles w message w' :
  handleDeleteFiles (Some user) selectedFiles w = (MoveAlert message, w') ->
  NoDup selectedFiles /\
  (forall fileName, In fileName selectedFiles ->
     is_Some (hot w !! object_key (auth_uid user) fileName) /\
     hot w' !! object_key (auth_uid user) fileName = None) /\
  (forall k, (forall fileName, In fileName selectedFiles ->
                k <> object_key (auth_uid user) fileName) ->
     hot w' !! k = hot w !! k) /\
  cold w' = cold w /\ gcpFiles w' = gcpFiles w /\ users w' = users w.
Proof.
  unfold handleDeleteFiles. intros H.
  destruct (delete_loop user selectedFiles w) as [[[]|e] w1] eqn:Hloop; [|discriminate].
  injection H as _ <-. apply delete_loop_ok. exact Hloop.
Qed.

Lemma handleDeleteFiles_removes_selection_witness :
  NoDup ["a.txt"] /\
  (forall fileName, In fileName ["a.txt"] ->
     is_Some (hot Sample.hot_world !! object_key (auth_uid Sample.alice_auth) fileName) /\
     hot (snd (handleDeleteFiles (Some Sample.alice_auth) ["a.txt"] Sample.hot_world))
       !! object_key (auth_uid Sample.alice_auth) fileName = None) /\
  (forall k, (forall fileName, In fileName ["a.txt"] ->
                k <> object_key (auth_uid Sample.alice_auth) fileName) ->
     hot (snd (handleDeleteFiles (Some Sample.alice_auth) ["a.txt"] Sample.hot_world)) !! k
       = hot Sample.hot_world !! k) /\
  cold (snd (handleDeleteFiles (Some Sample.alice_auth) ["a.txt"] Sample.hot_world))
    = cold Sample.hot_world /\
  gcpFiles (snd (handleDeleteFiles (Some Sample.alice_auth) ["a.txt"] Sample.hot_world))
    = gcpFiles Sample.hot_world /\
  users (snd (handleDeleteFiles (Some Sample.alice_auth) ["a.txt"] Sample.hot_world))
    = users Sample.hot_world.
Proof.
  apply (handleDeleteFiles_removes_selection Sample.alice_auth ["a.txt"] Sample.hot_world
           "Selected files deleted successfully.").
  vm_compute. reflexivity.
Defined.
